(** * Bharat STT API: the request handlers of [main.py]

    A shallow embedding of the FastAPI application in [src/main.py]: the
    Language Registry, the health probe and the [POST /api/stt] handler with
    its [try] / [except] / [finally] block, followed by the properties of the
    specification that concern them.

    Python values are modelled as follows.
    - [str] is a list of Unicode code points ([pystr]).
    - The file system is a finite map from paths to file contents.
    - Calls that leave the program (the Whisper model, [tempfile], the upload
      body, [os.remove]) are answered by an explicit environment [Env];
      every call is recorded in a trace of events.
    - An exception is a value; a handler run ends in [Return] or [Raise].
      Building a [JSONResponse] renders its body as UTF-8, which fails on a
      lone surrogate.
      The exceptions of the model are instances of [Exception], the class
      the handler's [except] clause catches.
    - Paths follow [posixpath].  During a run nothing but the handler
      changes the file system: the model reads it, and no other process
      touches the temporary file. *)

From Stdlib Require Import ZArith String Ascii Lia.
From stdpp Require Import base decidable option list gmap pretty.

Local Open Scope Z_scope.

(** ** Python strings *)

Module PyStr.

(** A [str] is its sequence of code points. *)
Definition pystr : Type := list N.

(** A literal of the source, all of whose characters are ASCII. *)
Definition lit (s : string) : pystr :=
  map N_of_ascii (list_ascii_of_string s).

Definition is_ascii (c : N) : bool := (c <? 128)%N.

(** [str.isspace] for one code point: the characters that [str.strip()]
    removes (CPython's [_PyUnicode_IsWhitespace]). *)
Definition isspace (c : N) : bool :=
  ((9 <=? c) && (c <=? 13) || (28 <=? c) && (c <=? 32)
   || (c =? 133) || (c =? 160) || (c =? 5760)
   || (8192 <=? c) && (c <=? 8202)
   || (c =? 8232) || (c =? 8233) || (c =? 8239) || (c =? 8287)
   || (c =? 12288))%N.

Fixpoint lstrip (s : pystr) : pystr :=
  match s with
  | [] => []
  | c :: s' => if isspace c then lstrip s' else s
  end.

Definition rstrip (s : pystr) : pystr := rev (lstrip (rev s)).

(** [s.strip()] with no argument. *)
Definition strip (s : pystr) : pystr := rstrip (lstrip s).

(** The ASCII part of [str.lower]: [A]..[Z] to [a]..[z]. *)
Definition ascii_lower (c : N) : N :=
  if ((65 <=? c) && (c <=? 90))%N then (c + 32)%N else c.

(** [s.lower()].  On a string of ASCII characters it is [ascii_lower]
    character by character.  For any other string Python consults the case
    mappings of its Unicode database, which is no part of this program: they
    are the parameter [ucd_lower]. *)
Definition lower (ucd_lower : pystr -> pystr) (s : pystr) : pystr :=
  if forallb is_ascii s then map ascii_lower s else ucd_lower s.

(** [s.rfind(c)] for a single character [c]: the highest index of [c] in
    [s], or [-1].  [i] is the index of the head of [s]. *)
Fixpoint rfind_from (c : N) (s : pystr) (i : Z) : Z :=
  match s with
  | [] => -1
  | x :: s' =>
      let r := rfind_from c s' (i + 1) in
      if 0 <=? r then r
      else if (x =? c)%N then i else -1
  end.

Definition rfind (c : N) (s : pystr) : Z := rfind_from c s 0.

(** [repr] of a [str] that has no quote, no backslash and only printable
    ASCII characters, which is the case of every string of the two lists the
    program prints: the string between single quotes. *)
Definition repr_plain (s : pystr) : pystr := lit "'" ++ s ++ lit "'".

Fixpoint join (sep : pystr) (l : list pystr) : pystr :=
  match l with
  | [] => []
  | [x] => x
  | x :: l' => x ++ sep ++ join sep l'
  end.

(** [repr] (and so the f-string rendering) of a list of such strings. *)
Definition repr_list (l : list pystr) : pystr :=
  lit "[" ++ join (lit ", ") (map repr_plain l) ++ lit "]".

(** [needle in haystack] for strings. *)
Fixpoint contains (needle hay : pystr) : bool :=
  match hay with
  | [] => bool_decide (needle = [])
  | _ :: hay' =>
      bool_decide (take (length needle) hay = needle) || contains needle hay'
  end.

End PyStr.
Import PyStr.

(** ** [os.path.splitext] *)

Module OsPath.

Definition sep : N := 47.     (* "/" *)
Definition extsep : N := 46.  (* "." *)

(** The loop of [genericpath._splitext] that skips the leading dots of the
    last path component: it runs while [filenameIndex < dotIndex], here for
    [n] more rounds, and answers [true] as soon as a character other than
    the dot is met (the early [return p[:dotIndex], p[dotIndex:]]). *)
Fixpoint has_name_before_dot (p : pystr) (filenameIndex n : nat) : bool :=
  match n with
  | O => false
  | S n' =>
      if bool_decide (p !! filenameIndex = Some extsep)
      then has_name_before_dot p (S filenameIndex) n'
      else true
  end.

(** [os.path.splitext(p)] of [posixpath] ([sep] is the slash, there is no
    [altsep]). *)
Definition splitext (p : pystr) : pystr * pystr :=
  let sepIndex := rfind sep p in
  let dotIndex := rfind extsep p in
  if (sepIndex <? dotIndex)
     && has_name_before_dot p (Z.to_nat (sepIndex + 1))
          (Z.to_nat (dotIndex - (sepIndex + 1)))
  then (take (Z.to_nat dotIndex) p, drop (Z.to_nat dotIndex) p)
  else (p, []).

End OsPath.

(** ** Values of the program *)

(** JSON values, as far as the handlers build them. *)
#[warnings="-register-all"]
Inductive json :=
| JBool (b : bool)
| JInt (n : Z)
| JStr (s : pystr)
| JObj (fields : list (pystr * json)).

(** A [dict] literal keeps the order of insertion, which shows when it is
    printed: an association list. *)
Definition dict (V : Type) : Type := list (pystr * V).

Definition keys {V} (d : dict V) : list pystr := d.*1.

Fixpoint dict_get {V} (d : dict V) (k : pystr) : option V :=
  match d with
  | [] => None
  | (k', v) :: d' => if decide (k' = k) then Some v else dict_get d' k
  end.

(** [JSONResponse(content)]: the status code defaults to 200. *)
Record JSONResponse := mkJSONResponse {
  status_code : Z;
  content : dict json
}.

(** ** Rendering a response body *)

(** A surrogate code point: [str.encode("utf-8")] refuses it. *)
Definition is_surrogate (c : N) : bool := ((55296 <=? c) && (c <=? 57343))%N.

Definition no_surrogate (s : pystr) : bool :=
  forallb (fun c => negb (is_surrogate c)) s.

(** A hexadecimal digit in lower case, and the four digits of [%04x]. *)
Definition hex_digit (n : N) : N := (if n <? 10 then 48 + n else 87 + n)%N.

Definition hex4 (c : N) : pystr :=
  [hex_digit (c / 4096 mod 16); hex_digit (c / 256 mod 16);
   hex_digit (c / 16 mod 16); hex_digit (c mod 16)]%N.

(** How [json.dumps(..., ensure_ascii=False)] writes one character of a
    string: the quote, the backslash and the control characters are
    escaped, every other character stands for itself. *)
Definition json_escape (c : N) : pystr :=
  (if c =? 34 then [92; 34]
   else if c =? 92 then [92; 92]
   else if c =? 10 then [92; 110]
   else if c =? 13 then [92; 114]
   else if c =? 9 then [92; 116]
   else if c =? 12 then [92; 102]
   else if c =? 8 then [92; 98]
   else if c <? 32 then [92; 117] ++ hex4 c
   else [c])%N.

Definition json_string (s : pystr) : pystr :=
  [34%N] ++ flat_map json_escape s ++ [34%N].

(** [json.dumps(j, ensure_ascii=False, allow_nan=False, indent=None,
    separators=(",", ":"))], the text Starlette's [JSONResponse.render]
    encodes. *)
Fixpoint json_dumps (j : json) : pystr :=
  match j with
  | JBool true => lit "true"
  | JBool false => lit "false"
  | JInt n => lit (pretty n)
  | JStr s => json_string s
  | JObj fields =>
      lit "{"
      ++ join (lit ",")
           (map (fun kv => json_string (fst kv) ++ lit ":" ++ json_dumps (snd kv))
                fields)
      ++ lit "}"
  end.

(** The index of the first surrogate of [s], counted from [i]. *)
Fixpoint find_surrogate (s : pystr) (i : nat) : option nat :=
  match s with
  | [] => None
  | c :: s' => if is_surrogate c then Some i else find_surrogate s' (S i)
  end.

(** The number of surrogates [s] starts with. *)
Fixpoint surrogate_run (s : pystr) : nat :=
  match s with
  | c :: s' => if is_surrogate c then S (surrogate_run s') else O
  | [] => O
  end.

(** [s.encode("utf-8")]: [None] when it succeeds, and otherwise [str(e)] of
    the [UnicodeEncodeError], which names the first run of surrogates. *)
Definition utf8_encode_error (s : pystr) : option pystr :=
  match find_surrogate s 0 with
  | None => None
  | Some start =>
      let n := surrogate_run (drop start s) in
      Some (if decide (n = 1%nat)
            then lit "'utf-8' codec can't encode character '\u"
                 ++ hex4 (default 0%N (s !! start)) ++ lit "' in position "
                 ++ lit (pretty start) ++ lit ": surrogates not allowed"
            else lit "'utf-8' codec can't encode characters in position "
                 ++ lit (pretty start) ++ lit "-"
                 ++ lit (pretty (start + n - 1)%nat)
                 ++ lit ": surrogates not allowed")
  end.

(** The exceptions the handler meets.  [OtherError] stands for any other
    instance of [Exception] and carries [str(e)]. *)
Inductive pyexn :=
| HTTPException (status : Z) (detail : pystr)
| UnboundLocalError (name : pystr)
| KeyError (key : pystr)
| OtherError (msg : pystr).

(** [str(e)].  Starlette prints an [HTTPException] as its status and detail,
    Python 3.11 and later word the [UnboundLocalError] as below, and a
    [KeyError] prints the [repr] of its key. *)
Definition exn_str (e : pyexn) : pystr :=
  match e with
  | HTTPException status detail => lit (pretty status) ++ lit ": " ++ detail
  | UnboundLocalError name =>
      lit "cannot access local variable '" ++ name
      ++ lit "' where it is not associated with a value"
  | KeyError key => repr_plain key
  | OtherError msg => msg
  end.

Inductive outcome (A : Type) :=
| Return (a : A)
| Raise (e : pyexn).
Arguments Return {A} a.
Arguments Raise {A} e.

(** ** The world outside the program *)

Definition bytes : Type := list Byte.byte.

(** The file system: the files that exist, with their contents. *)
Abbreviation FS := (gmap pystr bytes).

(** The result of [model.transcribe]: a dictionary of which the program
    reads the ["text"] entry. *)
Record TranscribeResult := { text : pystr }.

(** A loaded Whisper model.  [transcribe] is a black box that may read the
    file system; it answers with a result or raises with a message. *)
Record WhisperModel := {
  transcribe : FS -> pystr -> pystr -> bool -> bool -> pystr + TranscribeResult
}.

(** What the surroundings answer during one run. *)
Record Env := {
  (** the Unicode case mappings behind [str.lower] *)
  ucd_lower : pystr -> pystr;
  (** [whisper.load_model(name)] *)
  whisper_load_model : pystr -> pystr + WhisperModel;
  (** [tempfile.gettempdir()] *)
  tempdir : pystr;
  (** the random names [tempfile] tries in turn *)
  candidate_names : list pystr;
  (** an [OSError] of [os.open] other than "file exists" *)
  open_error : option pystr;
  (** an [OSError] of [temp_file.write] *)
  write_error : option pystr;
  (** an [OSError] when the [with] block closes the file *)
  close_error : option pystr;
  (** an [OSError] of [os.remove] *)
  remove_error : option pystr
}.

(** The upload as FastAPI hands it to the handler: [audio.filename], the
    answer of [await audio.read()], and the form field [language] when the
    request carries one. *)
Record Request := {
  audio_filename : pystr;
  audio_read : pystr + bytes;
  form_language : option pystr
}.

Inductive loglevel := INFO | WARNING | ERROR.

(** What a run does that can be seen from outside, in order. *)
Inductive event :=
| EvLoadModel (name : pystr)
| EvTempfile (path : pystr)
| EvRead
| EvWrite (path : pystr)
| EvTranscribe (path language : pystr) (fp16 verbose : bool)
| EvExists (path : pystr)
| EvRemove (path : pystr)
| EvLog (level : loglevel) (msg : pystr).

(** The state of a run of [speech_to_text]: the world and the two local
    variables that outlive the [try] block.  [temp_file] is [None] for
    Python's [None] and the file's name once the [with] statement has bound
    it; [temp_path] is [None] while the variable is unbound. *)
Record State := mkState {
  fs : FS;
  trace : list event;
  temp_file : option pystr;
  temp_path : option pystr
}.

Definition init_state (f : FS) : State :=
  {| fs := f; trace := []; temp_file := None; temp_path := None |}.

(** ** A monad for state and exceptions *)

Definition M (A : Type) : Type := State -> outcome A * State.

Definition ret {A} (a : A) : M A := fun s => (Return a, s).

Definition bind {A B} (m : M A) (k : A -> M B) : M B :=
  fun s =>
    match m s with
    | (Return a, s') => k a s'
    | (Raise e, s') => (Raise e, s')
    end.

Definition raise {A} (e : pyexn) : M A := fun s => (Raise e, s).

(** [try: body except Exception as e: handler e] *)
Definition try_except {A} (body : M A) (handler : pyexn -> M A) : M A :=
  fun s =>
    match body s with
    | (Return a, s') => (Return a, s')
    | (Raise e, s') => handler e s'
    end.

(** [try: body finally: final].  The [finally] block runs on every exit; an
    exception it raises replaces the outcome of the body. *)
Definition try_finally {A} (body : M A) (final : M unit) : M A :=
  fun s =>
    match body s with
    | (o, s') =>
        match final s' with
        | (Return _, s'') => (o, s'')
        | (Raise e, s'') => (Raise e, s'')
        end
    end.

Declare Scope py_scope.
Delimit Scope py_scope with py.
Notation "'let!' x ':=' m 'in' k" := (bind m (fun x => k))
  (at level 10, x name, m at level 100, k at level 200) : py_scope.
Notation "'do!' m 'in' k" := (bind m (fun _ => k))
  (at level 10, m at level 100, k at level 200) : py_scope.
Local Open Scope py_scope.

Definition emit (ev : event) : M unit :=
  fun s => (Return tt, mkState (fs s) (trace s ++ [ev]) (temp_file s) (temp_path s)).

Definition log (level : loglevel) (msg : pystr) : M unit := emit (EvLog level msg).

Definition get_fs : M FS := fun s => (Return (fs s), s).

Definition set_fs (f : FS) : M unit :=
  fun s => (Return tt, mkState f (trace s) (temp_file s) (temp_path s)).

Definition get_temp_file : M (option pystr) := fun s => (Return (temp_file s), s).

Definition set_temp_file (v : option pystr) : M unit :=
  fun s => (Return tt, mkState (fs s) (trace s) v (temp_path s)).

(** Reading the local [temp_path]: an unbound local raises. *)
Definition get_temp_path : M pystr :=
  fun s =>
    match temp_path s with
    | Some p => (Return p, s)
    | None => (Raise (UnboundLocalError (lit "temp_path")), s)
    end.

Definition set_temp_path (p : pystr) : M unit :=
  fun s => (Return tt, mkState (fs s) (trace s) (temp_file s) (Some p)).

(** ** Library calls of the handler *)

(** The name [tempfile] gives a file: directory, the prefix [tmp], a random
    part and the suffix asked for. *)
Definition temp_name (env : Env) (suffix name : pystr) : pystr :=
  tempdir env ++ lit "/" ++ lit "tmp" ++ name ++ suffix.

(** [tempfile.NamedTemporaryFile(delete=False, suffix=suffix)]: the random
    names are tried in turn and the first one that is free is created
    (the file is opened with [O_EXCL]); an [OSError] is raised when the
    directory refuses the file or no name is free.  The file starts empty. *)
Definition NamedTemporaryFile (env : Env) (suffix : pystr) : M pystr :=
  let! f := get_fs in
  match open_error env with
  | Some msg => raise (OtherError msg)
  | None =>
      match
        find (fun name => bool_decide (f !! temp_name env suffix name = None))
             (candidate_names env)
      with
      | None =>
          raise (OtherError (lit "[Errno 17] No usable temporary file name found"))
      | Some name =>
          let path := temp_name env suffix name in
          do! set_fs (<[path := []]> f) in
          do! emit (EvTempfile path) in
          ret path
      end
  end.

(** [await audio.read()] *)
Definition audio_read_all (req : Request) : M bytes :=
  do! emit EvRead in
  match audio_read req with
  | inl msg => raise (OtherError msg)
  | inr body => ret body
  end.

(** [temp_file.write(content)] on the file named [path] *)
Definition file_write (env : Env) (path : pystr) (data : bytes) : M unit :=
  do! emit (EvWrite path) in
  match write_error env with
  | Some msg => raise (OtherError msg)
  | None =>
      let! f := get_fs in
      set_fs (<[path := default [] (f !! path) ++ data]> f)
  end.

(** Leaving the [with] block closes the file; the file stays, for
    [delete=False]. *)
Definition file_close (env : Env) : M unit :=
  match close_error env with
  | Some msg => raise (OtherError msg)
  | None => ret tt
  end.

(** [with NamedTemporaryFile(...) as temp_file: body].  The variable is
    bound before the body runs; the file is closed however the body ends.
    An exception of the body goes on after the file is closed, unless closing
    raises one of its own. *)
Definition with_temp_file {A} (env : Env) (suffix : pystr) (body : pystr -> M A) : M A :=
  let! name := NamedTemporaryFile env suffix in
  do! set_temp_file (Some name) in
  fun s =>
    match body name s with
    | (Return a, s') =>
        match file_close env s' with
        | (Return _, s'') => (Return a, s'')
        | (Raise e, s'') => (Raise e, s'')
        end
    | (Raise e, s') =>
        match file_close env s' with
        | (Return _, s'') => (Raise e, s'')
        | (Raise e', s'') => (Raise e', s'')
        end
    end.

(** [model.transcribe(path, language=..., fp16=..., verbose=...)] *)
Definition model_transcribe (model : WhisperModel) (path language : pystr)
    (fp16 verbose : bool) : M TranscribeResult :=
  do! emit (EvTranscribe path language fp16 verbose) in
  let! f := get_fs in
  match transcribe model f path language fp16 verbose with
  | inl msg => raise (OtherError msg)
  | inr result => ret result
  end.

(** [os.path.exists(path)] *)
Definition os_path_exists (path : pystr) : M bool :=
  do! emit (EvExists path) in
  let! f := get_fs in
  ret (bool_decide (is_Some (f !! path))).

(** [os.remove(path)] *)
Definition os_remove (env : Env) (path : pystr) : M unit :=
  do! emit (EvRemove path) in
  match remove_error env with
  | Some msg => raise (OtherError msg)
  | None =>
      let! f := get_fs in
      match f !! path with
      | None =>
          raise (OtherError (lit "[Errno 2] No such file or directory: "
                             ++ repr_plain path))
      | Some _ => set_fs (delete path f)
      end
  end.

(** [JSONResponse(content)].  The body is rendered when the response is
    built: the dictionary is written as JSON and encoded as UTF-8, which
    raises [UnicodeEncodeError] when a string of it holds a lone
    surrogate. *)
Definition new_JSONResponse (content : dict json) : M JSONResponse :=
  match utf8_encode_error (json_dumps (JObj content)) with
  | Some msg => raise (OtherError msg)
  | None => ret (mkJSONResponse 200 content)
  end.

(** [d[k]] *)
Definition getitem {V} (d : dict V) (k : pystr) : M V :=
  match dict_get d k with
  | Some v => ret v
  | None => raise (KeyError k)
  end.

(** ** The application *)

(** Characters of the log messages that are not ASCII. *)
Definition check_mark : pystr := [9989%N].
Definition cross_mark : pystr := [10060%N].
Definition wastebasket : pystr := [128465%N; 65039%N].
Definition microphone : pystr := [127908%N].

(** The module's globals once it is imported. *)
Record App := { model : option WhisperModel }.

(** The model is loaded once, when the module is imported; a failure is
    logged and leaves [model = None]. *)
Definition load_model (env : Env) : App * list event :=
  match whisper_load_model env (lit "base") with
  | inr m =>
      ({| model := Some m |},
       [EvLog INFO (lit "Loading Whisper model..."); EvLoadModel (lit "base");
        EvLog INFO (check_mark ++ lit " Whisper model loaded successfully")])
  | inl msg =>
      ({| model := None |},
       [EvLog INFO (lit "Loading Whisper model..."); EvLoadModel (lit "base");
        EvLog ERROR (cross_mark ++ lit " Model loading failed: " ++ msg)])
  end.

Definition SUPPORTED_LANGUAGES : dict pystr :=
  [ (lit "hi", lit "Hindi");
    (lit "en", lit "English");
    (lit "ta", lit "Tamil");
    (lit "te", lit "Telugu");
    (lit "mr", lit "Marathi");
    (lit "bn", lit "Bengali");
    (lit "gu", lit "Gujarati");
    (lit "kn", lit "Kannada");
    (lit "ml", lit "Malayalam");
    (lit "pa", lit "Punjabi") ].

(** [GET /] *)
Definition root : dict json :=
  [ (lit "message", JStr (microphone ++ lit " Bharat STT API"));
    (lit "status", JStr (lit "active"));
    (lit "endpoints",
     JObj [ (lit "health", JStr (lit "/health"));
            (lit "transcribe", JStr (lit "/api/stt"));
            (lit "languages", JStr (lit "/api/languages")) ]) ].

(** [GET /health] *)
Definition health_check (app : App) : dict json :=
  [ (lit "ok", JBool true);
    (lit "status", JStr (lit "running"));
    (lit "model_loaded", JBool (bool_decide (is_Some (model app))));
    (lit "model_type", JStr (lit "whisper-base")) ].

(** [GET /api/languages] *)
Definition get_languages : dict json :=
  [ (lit "supported_languages",
     JObj (map (fun kv => (kv.1, JStr kv.2)) SUPPORTED_LANGUAGES));
    (lit "total", JInt (Z.of_nat (length SUPPORTED_LANGUAGES))) ].

Definition allowed_formats : list pystr :=
  [lit ".m4a"; lit ".wav"; lit ".mp3"; lit ".ogg"; lit ".flac"].

(** The value FastAPI binds to the parameter [language]: the form field, or
    the default declared by [Form("hi")]. *)
Definition language_of (req : Request) : pystr :=
  default (lit "hi") (form_language req).

(** The body of the [try] block. *)
Definition try_body (m : WhisperModel) (env : Env) (req : Request)
    (language file_ext : pystr) : M JSONResponse :=
  do! with_temp_file env file_ext (fun name =>
        let! content := audio_read_all req in
        do! file_write env name content in
        set_temp_path name) in
  do! log INFO (lit "Processing audio: " ++ audio_filename req
                ++ lit " | Language: " ++ language) in
  let! temp_path := get_temp_path in
  let! result := model_transcribe m temp_path language false false in
  let transcribed_text := strip (text result) in
  do! log INFO (check_mark ++ lit " Transcription successful: "
                ++ take 50 transcribed_text ++ lit "...") in
  let! language_name := getitem SUPPORTED_LANGUAGES language in
  new_JSONResponse
    [ (lit "success", JBool true);
      (lit "text", JStr transcribed_text);
      (lit "language", JStr language);
      (lit "language_name", JStr language_name);
      (lit "filename", JStr (audio_filename req)) ].

(** The [except Exception as e] clause. *)
Definition except_clause (e : pyexn) : M JSONResponse :=
  do! log ERROR (cross_mark ++ lit " Transcription error: " ++ exn_str e) in
  raise (HTTPException 500 (lit "Transcription failed: " ++ exn_str e)).

(** The [finally] block.  [temp_file and ...] reads [temp_path] only when
    [temp_file] is not [None]. *)
Definition finally_clause (env : Env) : M unit :=
  let! temp_file := get_temp_file in
  match temp_file with
  | None => ret tt
  | Some _ =>
      let! temp_path := get_temp_path in
      let! there := os_path_exists temp_path in
      if there then
        try_except
          (do! os_remove env temp_path in
           log INFO (wastebasket ++ lit " Temporary file deleted"))
          (fun e => log WARNING (lit "Cleanup warning: " ++ exn_str e))
      else ret tt
  end.

(** [POST /api/stt] *)
Definition speech_to_text (app : App) (env : Env) (req : Request) : M JSONResponse :=
  let language := language_of req in
  match model app with
  | None =>
      raise (HTTPException 503 (lit "Model not loaded. Server starting..."))
  | Some m =>
      if bool_decide (language ∉ keys SUPPORTED_LANGUAGES) then
        raise (HTTPException 400
                 (lit "Language '" ++ language ++ lit "' not supported. Use: "
                  ++ repr_list (keys SUPPORTED_LANGUAGES)))
      else
        let file_ext := lower (ucd_lower env) (OsPath.splitext (audio_filename req)).2 in
        if bool_decide (file_ext ∉ allowed_formats) then
          raise (HTTPException 400
                   (lit "Invalid format. Allowed: " ++ repr_list allowed_formats))
        else
          do! set_temp_file None in
          try_finally
            (try_except (try_body m env req language file_ext) except_clause)
            (finally_clause env)
  end.

(** A run of the handler on a file system: its outcome, the file system it
    leaves and what it did. *)
Definition run (app : App) (env : Env) (req : Request) (f : FS)
  : outcome JSONResponse * State :=
  speech_to_text app env req (init_state f).

(** ** Conditions on a run *)

(** The file that [NamedTemporaryFile] creates on the file system [f], when
    it creates one. *)
Definition fresh_temp (env : Env) (suffix : pystr) (f : FS) : option pystr :=
  match open_error env with
  | Some _ => None
  | None =>
      temp_name env suffix <$>
        find (fun name => bool_decide (f !! temp_name env suffix name = None))
             (candidate_names env)
  end.

(** The extension the handler checks and gives to the temporary file. *)
Definition file_ext_of (env : Env) (req : Request) : pystr :=
  lower (ucd_lower env) (OsPath.splitext (audio_filename req)).2.

(** Staging succeeds: the temporary file [path] is created, the upload is
    read as [body], written to the file, and the file is closed. *)
Definition staged (env : Env) (req : Request) (f : FS) (path : pystr) (body : bytes) : Prop :=
  fresh_temp env (file_ext_of env req) f = Some path
  /\ audio_read req = inr body
  /\ write_error env = None
  /\ close_error env = None.

(** Two uploads whose file names have extensions of ASCII characters that
    differ at most in the case of their letters. *)
Definition same_ext_up_to_case (req req' : Request) : Prop :=
  let e := (OsPath.splitext (audio_filename req)).2 in
  let e' := (OsPath.splitext (audio_filename req')).2 in
  forallb is_ascii e = true /\ forallb is_ascii e' = true
  /\ map ascii_lower e = map ascii_lower e'.

(** The request passes the three checks made before the [try] block. *)
Definition validated (app : App) (env : Env) (req : Request) (m : WhisperModel) : Prop :=
  model app = Some m
  /\ language_of req ∈ keys SUPPORTED_LANGUAGES
  /\ file_ext_of env req ∈ allowed_formats.

(** The same request, with another [language] form field. *)
Definition with_language (l : option pystr) (req : Request) : Request :=
  {| audio_filename := audio_filename req;
     audio_read := audio_read req;
     form_language := l |}.

(** The same surroundings, with another answer of [os.remove]. *)
Definition with_remove_error (r : option pystr) (env : Env) : Env :=
  {| ucd_lower := ucd_lower env;
     whisper_load_model := whisper_load_model env;
     tempdir := tempdir env;
     candidate_names := candidate_names env;
     open_error := open_error env;
     write_error := write_error env;
     close_error := close_error env;
     remove_error := r |}.

Definition is_remove (ev : event) : bool :=
  match ev with EvRemove _ => true | _ => false end.

Definition is_transcribe (ev : event) : bool :=
  match ev with EvTranscribe _ _ _ _ => true | _ => false end.

(** The events that touch the staging area or the model. *)
Definition is_staging_or_model (ev : event) : bool :=
  match ev with
  | EvTempfile _ | EvRead | EvWrite _ | EvTranscribe _ _ _ _ => true
  | _ => false
  end.

(** The handler ends as FastAPI expects: a response, or an [HTTPException]
    whose status is 400, 500 or 503 (rendered as a JSON body with a
    [detail] entry). *)
Definition handled (o : outcome JSONResponse) : Prop :=
  match o with
  | Return _ => True
  | Raise (HTTPException status _) => status = 400 \/ status = 500 \/ status = 503
  | Raise _ => False
  end.

(** The dictionary of a successful answer. *)
Definition success_content (text language language_name filename : pystr) : dict json :=
  [ (lit "success", JBool true);
    (lit "text", JStr text);
    (lit "language", JStr language);
    (lit "language_name", JStr language_name);
    (lit "filename", JStr filename) ].

(** The outcome of the [try] / [except] part once the file is staged, and
    what it logs after the model is called. *)
Definition answer (m : WhisperModel) (req : Request) (f1 : FS) (path : pystr)
  : outcome JSONResponse * list event :=
  let language := language_of req in
  match transcribe m f1 path language false false with
  | inr result =>
      let content :=
        success_content (strip (text result)) language
          (default [] (dict_get SUPPORTED_LANGUAGES language)) (audio_filename req) in
      let done :=
        EvLog INFO (check_mark ++ lit " Transcription successful: "
                    ++ take 50 (strip (text result)) ++ lit "...") in
      match utf8_encode_error (json_dumps (JObj content)) with
      | None => (Return (mkJSONResponse 200 content), [done])
      | Some msg =>
          (Raise (HTTPException 500 (lit "Transcription failed: " ++ msg)),
           [done; EvLog ERROR (cross_mark ++ lit " Transcription error: " ++ msg)])
      end
  | inl msg =>
      (Raise (HTTPException 500 (lit "Transcription failed: " ++ msg)),
       [EvLog ERROR (cross_mark ++ lit " Transcription error: " ++ msg)])
  end.

(** ** Sample surroundings *)

Module Sample.

Definition whisper : WhisperModel :=
  {| transcribe := fun _ _ _ _ _ => inr {| text := lit "  namaste duniya  " |} |}.

Definition broken_whisper : WhisperModel :=
  {| transcribe := fun _ _ _ _ _ => inl (lit "Failed to load audio") |}.

Definition env : Env :=
  {| ucd_lower := fun s => s;
     whisper_load_model := fun _ => inr whisper;
     tempdir := lit "/tmp";
     candidate_names := [lit "k3x9q2ab"; lit "p0w8e7zz"];
     open_error := None;
     write_error := None;
     close_error := None;
     remove_error := None |}.

(** The model cannot be loaded. *)
Definition env_no_model : Env :=
  {| ucd_lower := fun s => s;
     whisper_load_model := fun _ => inl (lit "out of memory");
     tempdir := lit "/tmp";
     candidate_names := [lit "k3x9q2ab"; lit "p0w8e7zz"];
     open_error := None;
     write_error := None;
     close_error := None;
     remove_error := None |}.

(** The disk is full: the temporary file is created, writing to it fails. *)
Definition env_disk_full : Env :=
  {| ucd_lower := fun s => s;
     whisper_load_model := fun _ => inr whisper;
     tempdir := lit "/tmp";
     candidate_names := [lit "k3x9q2ab"; lit "p0w8e7zz"];
     open_error := None;
     write_error := Some (lit "[Errno 28] No space left on device");
     close_error := None;
     remove_error := None |}.

Definition app : App := {| model := Some whisper |}.
Definition broken_app : App := {| model := Some broken_whisper |}.

Definition riff : bytes := [Byte.x52; Byte.x49; Byte.x46; Byte.x46].

Definition request : Request :=
  {| audio_filename := lit "clip.WAV";
     audio_read := inr riff;
     form_language := Some (lit "en") |}.

(** An upload larger than the buffer of the temporary file (8192 bytes), so
    that [temp_file.write] itself writes to the disk. *)
Definition long_audio : bytes := replicate (Z.to_nat 16384) Byte.x00.

Definition request_long : Request :=
  {| audio_filename := lit "clip.WAV";
     audio_read := inr long_audio;
     form_language := Some (lit "en") |}.

Definition request_no_language : Request :=
  {| audio_filename := lit "clip.WAV";
     audio_read := inr riff;
     form_language := None |}.

Definition request_bad_language : Request :=
  {| audio_filename := lit "clip.wav";
     audio_read := inr riff;
     form_language := Some (lit "xx") |}.

Definition request_txt : Request :=
  {| audio_filename := lit "notes.txt";
     audio_read := inr riff;
     form_language := Some (lit "hi") |}.

End Sample.

(** ** Further conditions and samples *)

(** The message of the [OSError] with which [NamedTemporaryFile] fails on
    the file system [f], when it fails. *)
Definition tempfile_error (env : Env) (suffix : pystr) (f : FS) : option pystr :=
  match open_error env with
  | Some msg => Some msg
  | None =>
      match
        find (fun name => bool_decide (f !! temp_name env suffix name = None))
             (candidate_names env)
      with
      | Some _ => None
      | None => Some (lit "[Errno 17] No usable temporary file name found")
      end
  end.

(** The text the [except] clause logs and the error it raises. *)
Definition failed (msg : pystr) : outcome JSONResponse :=
  Raise (HTTPException 500 (lit "Transcription failed: " ++ msg)).

Definition error_logged (msg : pystr) : event :=
  EvLog ERROR (cross_mark ++ lit " Transcription error: " ++ msg).


(** How far a run gets once its request is validated. *)
Inductive scenario (env : Env) (req : Request) (f : FS) : Prop :=
| CreateFails (msg : pystr) :
    tempfile_error env (file_ext_of env req) f = Some msg -> scenario env req f
| ReadFails (path msg : pystr) :
    fresh_temp env (file_ext_of env req) f = Some path ->
    audio_read req = inl msg -> scenario env req f
| WriteFails (path : pystr) (body : bytes) (msg : pystr) :
    fresh_temp env (file_ext_of env req) f = Some path ->
    audio_read req = inr body -> write_error env = Some msg -> scenario env req f
| CloseFails (path : pystr) (body : bytes) (msg : pystr) :
    fresh_temp env (file_ext_of env req) f = Some path ->
    audio_read req = inr body -> write_error env = None ->
    close_error env = Some msg -> scenario env req f
| Staged (path : pystr) (body : bytes) :
    staged env req f path body -> scenario env req f.

(** The path an event works on, for the events that take one. *)
Definition touched_path (ev : event) : option pystr :=
  match ev with
  | EvWrite p | EvTranscribe p _ _ _ | EvExists p | EvRemove p => Some p
  | _ => None
  end.

Definition is_tempfile (ev : event) : bool :=
  match ev with EvTempfile _ => true | _ => false end.


Module Cases.

Definition env_no_tmp : Env :=
  {| ucd_lower := fun s => s;
     whisper_load_model := fun _ => inr Sample.whisper;
     tempdir := lit "/tmp";
     candidate_names := [lit "k3x9q2ab"; lit "p0w8e7zz"];
     open_error := Some (lit "[Errno 13] Permission denied: '/tmp/tmpk3x9q2ab.wav'");
     write_error := None;
     close_error := None;
     remove_error := None |}.

(** A small upload stays in the file's buffer; the full disk shows when the
    file is closed. *)
Definition env_close_fails : Env :=
  {| ucd_lower := fun s => s;
     whisper_load_model := fun _ => inr Sample.whisper;
     tempdir := lit "/tmp";
     candidate_names := [lit "k3x9q2ab"; lit "p0w8e7zz"];
     open_error := None;
     write_error := None;
     close_error := Some (lit "[Errno 28] No space left on device");
     remove_error := None |}.


(** A file name with a lone surrogate, as the form parser yields for a
    byte it cannot decode in the charset of the request. *)
Definition request_surrogate : Request :=
  {| audio_filename := lit "clip" ++ [56448%N] ++ lit ".wav";
     audio_read := inr Sample.riff;
     form_language := Some (lit "en") |}.

Definition request_no_dot : Request :=
  {| audio_filename := lit "recording";
     audio_read := inr Sample.riff;
     form_language := Some (lit "hi") |}.

Definition blank_whisper : WhisperModel :=
  {| transcribe := fun _ _ _ _ _ => inr {| text := [32%N; 10%N; 12288%N] |} |}.

Definition clean_whisper : WhisperModel :=
  {| transcribe := fun _ _ _ _ _ => inr {| text := lit "good morning" |} |}.

End Cases.

(** * Properties *)

(** ** The library functions on examples *)

Example splitext_wav : OsPath.splitext (lit "clip.WAV") = (lit "clip", lit ".WAV").
Proof. reflexivity. Qed.

Example splitext_hidden : OsPath.splitext (lit "dir.d/.bashrc") = (lit "dir.d/.bashrc", []).
Proof. reflexivity. Qed.

Example splitext_two : OsPath.splitext (lit "a/b.tar.gz") = (lit "a/b.tar", lit ".gz").
Proof. reflexivity. Qed.

Example strip_ex : strip (lit "  hello world
 ") = lit "hello world".
Proof. reflexivity. Qed.

(** ** Running the handler *)

Lemma dict_get_keys {V} (d : dict V) k : k ∈ keys d -> is_Some (dict_get d k).
Proof.
  unfold keys. induction d as [|[k' v] d IH]; simpl.
  - intros H. by apply elem_of_nil in H.
  - intros H. destruct (decide (k' = k)); [eauto|].
    apply elem_of_cons in H as [->|H]; [done|auto].
Qed.

Lemma fresh_temp_find env suffix f path :
  fresh_temp env suffix f = Some path ->
  open_error env = None /\ f !! path = None /\
  exists name, find (fun name => bool_decide (f !! temp_name env suffix name = None))
             (candidate_names env) = Some name /\ path = temp_name env suffix name.
Proof.
  unfold fresh_temp. destruct (open_error env); [done|].
  destruct (find _ _) as [name|] eqn:Hf; [|done].
  intros [= <-]. split; [done|]. split; [|eauto].
  apply find_some in Hf as [_ Hf]. by apply bool_decide_eq_true in Hf.
Qed.

(** Unfolding of the monad's plumbing, leaving the library calls alone. *)
Ltac step :=
  cbv beta iota delta
    [bind ret raise try_except try_finally emit log get_fs set_fs
     get_temp_file set_temp_file get_temp_path set_temp_path
     fs trace temp_file temp_path init_state].

Lemma with_temp_file_staged env req f path body s :
  staged env req f path body -> fs s = f ->
  with_temp_file env (file_ext_of env req)
    (fun name =>
       let! content := audio_read_all req in
       do! file_write env name content in
       set_temp_path name) s
  = (Return tt,
     mkState (<[path := body]> f)
             (trace s ++ [EvTempfile path; EvRead; EvWrite path])
             (Some path) (Some path)).
Proof.
  intros (Hfresh & Hread & Hwrite & Hclose) Hfs.
  destruct s as [f0 tr tf tp]; simpl in Hfs; subst f0.
  apply fresh_temp_find in Hfresh as (Hopen & Hfree & name & Hfind & ->).
  unfold with_temp_file, NamedTemporaryFile, audio_read_all, file_write, file_close.
  step. rewrite Hopen, Hfind. step. rewrite Hread. step. rewrite Hwrite. step.
  rewrite Hclose. step.
  rewrite lookup_insert_eq, insert_insert_eq. simpl.
  by rewrite <- !app_assoc.
Qed.

Lemma finally_clause_bound env s path data x :
  temp_file s = Some x -> temp_path s = Some path -> fs s !! path = Some data ->
  finally_clause env s
  = (Return tt,
     mkState (match remove_error env with None => delete path (fs s) | Some _ => fs s end)
             (trace s ++
              [EvExists path; EvRemove path;
               match remove_error env with
               | None => EvLog INFO (wastebasket ++ lit " Temporary file deleted")
               | Some msg => EvLog WARNING (lit "Cleanup warning: " ++ msg)
               end])
             (temp_file s) (temp_path s)).
Proof.
  intros Hfile Hpath Hdata. destruct s as [f tr tf tp]. simpl in *. subst tf tp.
  unfold finally_clause, os_path_exists, os_remove. step.
  rewrite Hdata. rewrite bool_decide_eq_true_2 by eauto. step.
  destruct (remove_error env) as [msg|]; step.
  - by rewrite <- !app_assoc.
  - rewrite Hdata. by rewrite <- !app_assoc.
Qed.

Lemma run_staged app env req f m path body :
  validated app env req m -> staged env req f path body ->
  run app env req f =
    ((answer m req (<[path := body]> f) path).1,
     mkState
       (match remove_error env with None => f | Some _ => <[path := body]> f end)
       ([EvTempfile path; EvRead; EvWrite path;
         EvLog INFO (lit "Processing audio: " ++ audio_filename req
                     ++ lit " | Language: " ++ language_of req);
         EvTranscribe path (language_of req) false false]
        ++ (answer m req (<[path := body]> f) path).2 ++
        [EvExists path; EvRemove path;
         match remove_error env with
         | None => EvLog INFO (wastebasket ++ lit " Temporary file deleted")
         | Some msg => EvLog WARNING (lit "Cleanup warning: " ++ msg)
         end])
       (Some path) (Some path)).
Proof.
  intros (Hm & Hlang & Hext) Hst.
  assert (Hfree : f !! path = None).
  { destruct Hst as (Hfresh & _). by apply fresh_temp_find in Hfresh as (_ & ? & _). }
  destruct (dict_get_keys _ _ Hlang) as [lname Hname].
  unfold run, speech_to_text. rewrite Hm.
  rewrite (bool_decide_eq_false_2 (language_of req ∉ _)) by (intros H; by apply H).
  fold (file_ext_of env req).
  rewrite (bool_decide_eq_false_2 (file_ext_of env req ∉ _)) by (intros H; by apply H).
  unfold answer, try_body.
  unfold bind at 1, set_temp_file at 1, try_finally, try_except.
  unfold bind at 1.
  rewrite (with_temp_file_staged env req f path body) by done.
  unfold model_transcribe, getitem, except_clause, new_JSONResponse. step.
  destruct (transcribe m _ _ _ _ _) as [msg|result]; step.
  - erewrite finally_clause_bound; [|done|done|apply lookup_insert_eq].
    simpl. rewrite delete_insert_eq, delete_id by done.
    by destruct (remove_error env).
  - rewrite Hname. step. unfold success_content. simpl default.
    destruct (utf8_encode_error _) as [msg|]; step;
      (erewrite finally_clause_bound; [|done|done|apply lookup_insert_eq]);
      simpl; rewrite delete_insert_eq, delete_id by done;
      by destruct (remove_error env).
Qed.

Lemma run_no_model app env req f :
  model app = None ->
  run app env req f
  = (Raise (HTTPException 503 (lit "Model not loaded. Server starting...")),
     init_state f).
Proof. intros Hm. unfold run, speech_to_text. by rewrite Hm. Qed.

Lemma run_bad_language app env req f m :
  model app = Some m -> language_of req ∉ keys SUPPORTED_LANGUAGES ->
  run app env req f
  = (Raise (HTTPException 400
              (lit "Language '" ++ language_of req ++ lit "' not supported. Use: "
               ++ repr_list (keys SUPPORTED_LANGUAGES))),
     init_state f).
Proof.
  intros Hm Hlang. unfold run, speech_to_text. rewrite Hm.
  by rewrite bool_decide_eq_true_2.
Qed.

Lemma run_bad_format app env req f m :
  model app = Some m -> language_of req ∈ keys SUPPORTED_LANGUAGES ->
  file_ext_of env req ∉ allowed_formats ->
  run app env req f
  = (Raise (HTTPException 400
              (lit "Invalid format. Allowed: " ++ repr_list allowed_formats)),
     init_state f).
Proof.
  intros Hm Hlang Hext. unfold run, speech_to_text. rewrite Hm.
  rewrite (bool_decide_eq_false_2 (language_of req ∉ _)) by (intros H; by apply H).
  fold (file_ext_of env req). by rewrite bool_decide_eq_true_2.
Qed.

Lemma load_model_failed env msg :
  whisper_load_model env (lit "base") = inl msg -> model (load_model env).1 = None.
Proof. intros H. unfold load_model. by rewrite H. Qed.

(** ** The health probe *)

(** C10.  [GET /health] answers [ok: true] and [status: "running"] whatever
    the state of the process, also when the model is not loaded.  Only
    [model_loaded] tells whether the model is there: with that entry left
    out, the answers of any two process states are the same, so a probe that
    reads [ok] alone cannot see a model that failed to load. *)
Theorem health_ok_in_every_state (app app' : App) :
  dict_get (health_check app) (lit "ok") = Some (JBool true)
  /\ dict_get (health_check app) (lit "status") = Some (JStr (lit "running"))
  /\ dict_get (health_check app) (lit "model_loaded")
     = Some (JBool (bool_decide (is_Some (model app))))
  /\ dict_get (health_check {| model := None |}) (lit "ok") = Some (JBool true)
  /\ filter (fun kv => kv.1 <> lit "model_loaded") (health_check app)
     = filter (fun kv => kv.1 <> lit "model_loaded") (health_check app').
Proof. repeat split; reflexivity. Qed.

(** C5.  When the model failed to load at startup, [GET /health] reports
    [model_loaded: false], and [POST /api/stt] raises the 503 error for every
    request, whatever its language and file name; the run ends in the state
    it started in, with no event: nothing is checked, staged or transcribed
    before. *)
Theorem model_unavailable_503 (env0 env : Env) (req : Request) (f : FS) (msg : pystr) :
  whisper_load_model env0 (lit "base") = inl msg ->
  dict_get (health_check (load_model env0).1) (lit "model_loaded") = Some (JBool false)
  /\ run (load_model env0).1 env req f
     = (Raise (HTTPException 503 (lit "Model not loaded. Server starting...")),
        init_state f)
  /\ trace (run (load_model env0).1 env req f).2 = []
  /\ fs (run (load_model env0).1 env req f).2 = f.
Proof.
  intros Hload. pose proof (load_model_failed _ _ Hload) as Hm.
  rewrite (run_no_model _ env req f Hm). split; [|done].
  unfold health_check. by rewrite Hm.
Qed.

Lemma model_unavailable_503_witness :
  whisper_load_model Sample.env_no_model (lit "base") = inl (lit "out of memory")
  /\ run (load_model Sample.env_no_model).1 Sample.env Sample.request_bad_language ∅
     = (Raise (HTTPException 503 (lit "Model not loaded. Server starting...")),
        init_state ∅).
Proof.
  split; [reflexivity|].
  apply (model_unavailable_503 Sample.env_no_model Sample.env
           Sample.request_bad_language ∅ (lit "out of memory")).
  reflexivity.
Defined.

(** ** Validation *)

Lemma repr_supported_codes :
  repr_list (keys SUPPORTED_LANGUAGES)
  = lit "['hi', 'en', 'ta', 'te', 'mr', 'bn', 'gu', 'kn', 'ml', 'pa']".
Proof. reflexivity. Qed.

Lemma repr_allowed_formats :
  lit "Invalid format. Allowed: " ++ repr_list allowed_formats
  = lit "Invalid format. Allowed: ['.m4a', '.wav', '.mp3', '.ogg', '.flac']".
Proof. reflexivity. Qed.

Lemma contains_app_r (needle a b : pystr) :
  contains needle b = true -> contains needle (a ++ b) = true.
Proof.
  intros Hb. induction a as [|x a IH]; [done|].
  simpl. rewrite IH. apply orb_true_r.
Qed.

(** Every supported code stands, quoted, in the list the language error
    prints. *)
Lemma supported_codes_listed (prefix : pystr) :
  Forall (fun code =>
            contains (repr_plain code)
              (prefix ++ lit "['hi', 'en', 'ta', 'te', 'mr', 'bn', 'gu', 'kn', 'ml', 'pa']")
            = true)
         (keys SUPPORTED_LANGUAGES).
Proof.
  apply Forall_forall. intros code Hcode. apply contains_app_r.
  revert code Hcode. apply Forall_forall. compute_done.
Qed.

(** C3.  With the model loaded, a request whose language code is none of
    the ten keys of the registry is answered by the 400 error whose detail
    names the code and lists the ten supported codes.  The run ends in the
    state it started in, with no event: no temporary file is created and the
    model is not called. *)
Theorem unsupported_language_400 (app : App) (env : Env) (req : Request) (f : FS)
    (m : WhisperModel) :
  model app = Some m ->
  language_of req ∉ keys SUPPORTED_LANGUAGES ->
  run app env req f
  = (Raise (HTTPException 400
              (lit "Language '" ++ language_of req ++ lit "' not supported. Use: "
               ++ lit "['hi', 'en', 'ta', 'te', 'mr', 'bn', 'gu', 'kn', 'ml', 'pa']")),
     init_state f)
  /\ length (keys SUPPORTED_LANGUAGES) = 10%nat
  /\ Forall (fun code =>
               contains (repr_plain code)
                 ((lit "Language '" ++ language_of req ++ lit "' not supported. Use: ")
                  ++ lit "['hi', 'en', 'ta', 'te', 'mr', 'bn', 'gu', 'kn', 'ml', 'pa']")
               = true)
            (keys SUPPORTED_LANGUAGES)
  /\ filter is_staging_or_model (trace (run app env req f).2) = []
  /\ fs (run app env req f).2 = f.
Proof.
  intros Hm Hlang. rewrite (run_bad_language _ _ _ _ _ Hm Hlang).
  rewrite repr_supported_codes.
  split; [done|]. split; [done|]. split; [apply supported_codes_listed|done].
Qed.

Lemma unsupported_language_400_witness :
  run Sample.app Sample.env Sample.request_bad_language ∅
  = (Raise (HTTPException 400
              (lit "Language 'xx' not supported. Use: ['hi', 'en', 'ta', 'te', 'mr', 'bn', 'gu', 'kn', 'ml', 'pa']")),
     init_state ∅).
Proof.
  refine (proj1 (unsupported_language_400 Sample.app Sample.env
                   Sample.request_bad_language ∅ Sample.whisper _ _)).
  - reflexivity.
  - apply (bool_decide_eq_false_1 (lit "xx" ∈ keys SUPPORTED_LANGUAGES)).
    vm_compute. reflexivity.
Defined.

Lemma ext_case_insensitive env req req' :
  same_ext_up_to_case req req' -> file_ext_of env req = file_ext_of env req'.
Proof.
  intros (Ha & Ha' & Heq). unfold file_ext_of, lower. by rewrite Ha, Ha', Heq.
Qed.

(** C4.  With the model loaded and a supported language, a request whose
    file name has an extension that, lower-cased, is none of [.m4a], [.wav],
    [.mp3], [.ogg], [.flac] is answered by the 400 error whose detail lists
    the five formats.  The run ends in the state it started in, with no
    event, so nothing is staged.  The case of the letters plays no part: a
    request whose extension differs from this one in case only gets the same
    answer. *)
Theorem bad_extension_400 (app : App) (env : Env) (req : Request) (f : FS)
    (m : WhisperModel) :
  model app = Some m ->
  language_of req ∈ keys SUPPORTED_LANGUAGES ->
  file_ext_of env req ∉ allowed_formats ->
  run app env req f
  = (Raise (HTTPException 400
              (lit "Invalid format. Allowed: ['.m4a', '.wav', '.mp3', '.ogg', '.flac']")),
     init_state f)
  /\ Forall (fun ext =>
               contains (repr_plain ext)
                 (lit "Invalid format. Allowed: ['.m4a', '.wav', '.mp3', '.ogg', '.flac']")
               = true)
            allowed_formats
  /\ filter is_staging_or_model (trace (run app env req f).2) = []
  /\ fs (run app env req f).2 = f
  /\ (forall req',
        language_of req' ∈ keys SUPPORTED_LANGUAGES ->
        same_ext_up_to_case req req' ->
        run app env req' f
        = (Raise (HTTPException 400
                    (lit "Invalid format. Allowed: ['.m4a', '.wav', '.mp3', '.ogg', '.flac']")),
           init_state f)).
Proof.
  intros Hm Hlang Hext.
  rewrite (run_bad_format _ _ _ _ _ Hm Hlang Hext), repr_allowed_formats.
  split; [done|]. split; [compute_done|]. split; [done|]. split; [done|].
  intros req' Hlang' Hsame.
  rewrite (run_bad_format _ _ _ _ _ Hm Hlang'), repr_allowed_formats; [done|].
  by rewrite <- (ext_case_insensitive env req req' Hsame).
Qed.

Lemma bad_extension_400_witness :
  run Sample.app Sample.env Sample.request_txt ∅
  = (Raise (HTTPException 400
              (lit "Invalid format. Allowed: ['.m4a', '.wav', '.mp3', '.ogg', '.flac']")),
     init_state ∅).
Proof.
  refine (proj1 (bad_extension_400 Sample.app Sample.env Sample.request_txt ∅
                   Sample.whisper _ _ _)).
  - reflexivity.
  - apply (bool_decide_eq_true_1 (lit "hi" ∈ keys SUPPORTED_LANGUAGES)).
    vm_compute. reflexivity.
  - apply (bool_decide_eq_false_1 (lit ".txt" ∈ allowed_formats)).
    vm_compute. reflexivity.
Defined.

(** An upper-case extension passes the check. *)
Example upper_case_extension_allowed :
  file_ext_of Sample.env Sample.request = lit ".wav"
  /\ bool_decide (file_ext_of Sample.env Sample.request ∈ allowed_formats) = true.
Proof. split; vm_compute; reflexivity. Qed.

(** ** [str.strip] *)

Lemma lstrip_spec (s : pystr) :
  exists l, s = l ++ lstrip s
    /\ forallb isspace l = true
    /\ (forall c, head (lstrip s) = Some c -> isspace c = false).
Proof.
  induction s as [|c s (l & Hs & Hl & Hhd)]; simpl.
  - by exists [].
  - destruct (isspace c) eqn:Hc.
    + exists (c :: l). simpl. rewrite Hc, Hl. split; [by f_equal|done].
    + exists []. simpl. split; [done|]. split; [done|]. by intros c' [= <-].
Qed.

Lemma forallb_rev {A} (p : A -> bool) (l : list A) :
  forallb p (rev l) = forallb p l.
Proof.
  induction l as [|x l IH]; [done|]. simpl.
  rewrite forallb_app, IH. simpl. rewrite andb_true_r. apply andb_comm.
Qed.

Lemma last_rev {A} (l : list A) : last (rev l) = head l.
Proof. destruct l as [|x l]; [done|]. simpl. apply last_snoc. Qed.

Lemma rstrip_spec (s : pystr) :
  exists t, s = rstrip s ++ t
    /\ forallb isspace t = true
    /\ (forall c, last (rstrip s) = Some c -> isspace c = false).
Proof.
  unfold rstrip. destruct (lstrip_spec (rev s)) as (l & Hs & Hl & Hhd).
  exists (rev l). split; [|split].
  - rewrite <- rev_app_distr, <- Hs. by rewrite rev_involutive.
  - by rewrite forallb_rev.
  - intros c. rewrite last_rev. apply Hhd.
Qed.

(** [strip] takes a run of white space off each end and nothing else: what
    is left starts and ends with a character that is not white space. *)
Lemma strip_spec (s : pystr) :
  exists l t, s = l ++ strip s ++ t
    /\ forallb isspace l = true /\ forallb isspace t = true
    /\ (forall c, head (strip s) = Some c -> isspace c = false)
    /\ (forall c, last (strip s) = Some c -> isspace c = false).
Proof.
  unfold strip.
  destruct (lstrip_spec s) as (l & Hs & Hl & Hhd).
  destruct (rstrip_spec (lstrip s)) as (t & Hs' & Ht & Hlast).
  exists l, t. split; [by rewrite <- Hs'|]. repeat split; [done|done| |done].
  intros c Hc. apply Hhd. rewrite Hs'.
  destruct (rstrip (lstrip s)); [done|]. by simpl in *.
Qed.

(** ** Runs that reach the model *)

Lemma with_remove_error_same_checks r app env req m f path body :
  validated app env req m -> staged env req f path body ->
  validated app (with_remove_error r env) req m
  /\ staged (with_remove_error r env) req f path body.
Proof. done. Qed.

(** *** When the body of a response can be encoded *)

Lemma no_surrogate_app (a b : pystr) :
  no_surrogate (a ++ b) = no_surrogate a && no_surrogate b.
Proof. apply forallb_app. Qed.

Lemma small_no_surrogate (c : N) : (c < 55296)%N -> is_surrogate c = false.
Proof.
  intros Hc. unfold is_surrogate. destruct (N.leb_spec 55296 c); [lia|done].
Qed.

Lemma hex_digit_no_surrogate (n : N) : (n < 16)%N -> is_surrogate (hex_digit n) = false.
Proof.
  intros Hn. apply small_no_surrogate. unfold hex_digit.
  destruct (N.ltb_spec n 10); lia.
Qed.

Lemma hex4_no_surrogate (c : N) : no_surrogate (hex4 c) = true.
Proof.
  unfold hex4, no_surrogate. cbn [forallb].
  rewrite !hex_digit_no_surrogate; [done|apply N.mod_lt; lia..].
Qed.

(** An escaped character holds a surrogate only if it is one. *)
Lemma json_escape_no_surrogate (c : N) :
  no_surrogate (json_escape c) = negb (is_surrogate c).
Proof.
  unfold json_escape.
  destruct (N.eqb_spec c 34) as [->|_]; [reflexivity|].
  destruct (N.eqb_spec c 92) as [->|_]; [reflexivity|].
  destruct (N.eqb_spec c 10) as [->|_]; [reflexivity|].
  destruct (N.eqb_spec c 13) as [->|_]; [reflexivity|].
  destruct (N.eqb_spec c 9) as [->|_]; [reflexivity|].
  destruct (N.eqb_spec c 12) as [->|_]; [reflexivity|].
  destruct (N.eqb_spec c 8) as [->|_]; [reflexivity|].
  destruct (N.ltb_spec c 32) as [Hc|Hc].
  - unfold no_surrogate. cbn [app forallb].
    fold (no_surrogate (hex4 c)). rewrite hex4_no_surrogate.
    rewrite (small_no_surrogate c) by lia. reflexivity.
  - unfold no_surrogate. cbn [forallb]. apply andb_true_r.
Qed.

Lemma json_string_no_surrogate (s : pystr) :
  no_surrogate (json_string s) = no_surrogate s.
Proof.
  unfold json_string. rewrite !no_surrogate_app.
  change (no_surrogate [34%N]) with true. rewrite andb_true_r. cbn [andb].
  induction s as [|c s IH]; [done|].
  cbn [flat_map]. rewrite no_surrogate_app, json_escape_no_surrogate, IH.
  reflexivity.
Qed.

(** The rendered body of an answer holds a surrogate only if one of its
    four strings does. *)
Lemma success_content_no_surrogate (text language language_name filename : pystr) :
  no_surrogate (json_dumps (JObj (success_content text language language_name filename)))
  = no_surrogate text && no_surrogate language
    && no_surrogate language_name && no_surrogate filename.
Proof.
  unfold success_content. cbn [json_dumps map join fst snd].
  rewrite !no_surrogate_app, !json_string_no_surrogate.
  repeat match goal with
         | |- context [no_surrogate (lit ?x)] =>
             change (no_surrogate (lit x)) with true
         end.
  cbn [andb]. rewrite !andb_true_r, !andb_assoc. reflexivity.
Qed.

Lemma find_surrogate_none (s : pystr) (i : nat) :
  find_surrogate s i = None <-> no_surrogate s = true.
Proof.
  revert i. induction s as [|c s IH]; intros i; [done|].
  unfold no_surrogate in *. cbn [find_surrogate forallb].
  destruct (is_surrogate c); [done|]. apply IH.
Qed.

(** Encoding succeeds exactly on the strings without a surrogate. *)
Lemma utf8_encode_error_none (s : pystr) :
  utf8_encode_error s = None <-> no_surrogate s = true.
Proof.
  rewrite <- (find_surrogate_none s 0). unfold utf8_encode_error.
  by destruct (find_surrogate s 0).
Qed.

Lemma dict_get_elem {V} (d : dict V) (k : pystr) (v : V) :
  dict_get d k = Some v -> (k, v) ∈ d.
Proof.
  induction d as [|[k' v'] d IH]; [done|]. simpl.
  destruct (decide (k' = k)) as [->|].
  - intros [= ->]. apply list_elem_of_here.
  - intros H. apply list_elem_of_further. auto.
Qed.

Lemma registry_no_surrogate (language language_name : pystr) :
  dict_get SUPPORTED_LANGUAGES language = Some language_name ->
  no_surrogate language = true /\ no_surrogate language_name = true.
Proof.
  intros H%dict_get_elem. revert H.
  assert (Forall (fun kv => no_surrogate kv.1 = true /\ no_surrogate kv.2 = true)
            SUPPORTED_LANGUAGES) as Hall by compute_done.
  intros Hin. exact (proj1 (Forall_forall _ _) Hall _ Hin).
Qed.

(** The body of an answer can be encoded when the text and the file name
    hold no surrogate. *)
Lemma answer_encodable (text language language_name filename : pystr) :
  dict_get SUPPORTED_LANGUAGES language = Some language_name ->
  no_surrogate text = true -> no_surrogate filename = true ->
  utf8_encode_error
    (json_dumps (JObj (success_content text language language_name filename)))
  = None.
Proof.
  intros Hname Htext Hfile. destruct (registry_no_surrogate _ _ Hname) as [Hl Hn].
  apply utf8_encode_error_none.
  by rewrite success_content_no_surrogate, Htext, Hl, Hn, Hfile.
Qed.

(** C6.  With a supported language and an allowed extension, when staging
    and the model's call succeed and the body can be encoded (neither the
    file name nor the stripped text holds a lone surrogate), the handler
    returns a [JSONResponse] of status 200 whose body has the five entries
    [success: true], [text], [language] (the code asked for),
    [language_name] (the registry's name of that code) and [filename] (the
    upload's file name), and no other. *)
Theorem success_response (app : App) (env : Env) (req : Request) (f : FS)
    (m : WhisperModel) (path : pystr) (body : bytes) (result : TranscribeResult) :
  validated app env req m ->
  staged env req f path body ->
  transcribe m (<[path := body]> f) path (language_of req) false false = inr result ->
  no_surrogate (audio_filename req) = true ->
  no_surrogate (strip (text result)) = true ->
  exists language_name text,
    dict_get SUPPORTED_LANGUAGES (language_of req) = Some language_name
    /\ (run app env req f).1
       = Return {| status_code := 200;
                   content :=
                     [ (lit "success", JBool true);
                       (lit "text", JStr text);
                       (lit "language", JStr (language_of req));
                       (lit "language_name", JStr language_name);
                       (lit "filename", JStr (audio_filename req)) ] |}.
Proof.
  intros Hv Hs Hres Hfile Htext. rewrite (run_staged _ _ _ _ _ _ _ Hv Hs).
  destruct Hv as (_ & Hlang & _).
  destruct (dict_get_keys _ _ Hlang) as [name Hname].
  exists name, (strip (text result)). split; [done|].
  unfold answer. rewrite Hres, Hname. cbn [default from_option id].
  by rewrite (answer_encodable _ _ _ _ Hname Htext Hfile).
Qed.

Lemma success_response_witness :
  exists language_name text,
    dict_get SUPPORTED_LANGUAGES (lit "en") = Some language_name
    /\ (run Sample.app Sample.env Sample.request ∅).1
       = Return {| status_code := 200;
                   content :=
                     [ (lit "success", JBool true);
                       (lit "text", JStr text);
                       (lit "language", JStr (lit "en"));
                       (lit "language_name", JStr language_name);
                       (lit "filename", JStr (lit "clip.WAV")) ] |}.
Proof.
  apply (success_response Sample.app Sample.env Sample.request ∅ Sample.whisper
           (lit "/tmp/tmpk3x9q2ab.wav") Sample.riff
           {| text := lit "  namaste duniya  " |}).
  - unfold validated. repeat split; compute_done.
  - unfold staged. repeat split; compute_done.
  - reflexivity.
  - reflexivity.
  - reflexivity.
Defined.

(** The claim without the condition on the body fails: a file name with a
    lone surrogate passes the three checks, the upload is staged and the
    model returns its text, and the handler answers with the 500 error of
    the [except] clause, since the body cannot be encoded. *)
Lemma success_response_counterexample :
  validated Sample.app Sample.env Cases.request_surrogate Sample.whisper
  /\ staged Sample.env Cases.request_surrogate ∅ (lit "/tmp/tmpk3x9q2ab.wav") Sample.riff
  /\ transcribe Sample.whisper (<[lit "/tmp/tmpk3x9q2ab.wav" := Sample.riff]> ∅)
       (lit "/tmp/tmpk3x9q2ab.wav") (language_of Cases.request_surrogate) false false
     = inr {| text := lit "  namaste duniya  " |}
  /\ (run Sample.app Sample.env Cases.request_surrogate ∅).1
     = Raise (HTTPException 500
                (lit "Transcription failed: 'utf-8' codec can't encode character '\udc80' in position 98: surrogates not allowed"))
  /\ ~ (exists response,
         (run Sample.app Sample.env Cases.request_surrogate ∅).1 = Return response).
Proof.
  assert (Hrun : (run Sample.app Sample.env Cases.request_surrogate ∅).1
                 = Raise (HTTPException 500
                     (lit "Transcription failed: 'utf-8' codec can't encode character '\udc80' in position 98: surrogates not allowed")))
    by (vm_compute; reflexivity).
  split; [unfold validated; repeat split; compute_done|].
  split; [unfold staged; repeat split; compute_done|].
  split; [reflexivity|]. split; [exact Hrun|].
  intros [response Hresp]. rewrite Hrun in Hresp. discriminate.
Qed.

(** The same run, evaluated. *)
Example success_response_sample :
  (run Sample.app Sample.env Sample.request ∅).1
  = Return {| status_code := 200;
              content :=
                [ (lit "success", JBool true);
                  (lit "text", JStr (lit "namaste duniya"));
                  (lit "language", JStr (lit "en"));
                  (lit "language_name", JStr (lit "English"));
                  (lit "filename", JStr (lit "clip.WAV")) ] |}.
Proof. vm_compute. reflexivity. Qed.

(** C8.  When the model's call fails with a message, the handler raises the
    500 error whose detail is ["Transcription failed: "] followed by that
    message as it is, and the run calls the model once: the call is not made
    again. *)
Theorem transcription_failure_500 (app : App) (env : Env) (req : Request) (f : FS)
    (m : WhisperModel) (path : pystr) (body : bytes) (msg : pystr) :
  validated app env req m ->
  staged env req f path body ->
  transcribe m (<[path := body]> f) path (language_of req) false false = inl msg ->
  (run app env req f).1
  = Raise (HTTPException 500 (lit "Transcription failed: " ++ msg))
  /\ filter is_transcribe (trace (run app env req f).2)
     = [EvTranscribe path (language_of req) false false].
Proof.
  intros Hv Hs Hres. rewrite (run_staged _ _ _ _ _ _ _ Hv Hs).
  unfold answer. rewrite Hres. split; [reflexivity|].
  by destruct (remove_error env).
Qed.

Lemma transcription_failure_500_witness :
  (run Sample.broken_app Sample.env Sample.request ∅).1
  = Raise (HTTPException 500 (lit "Transcription failed: " ++ lit "Failed to load audio"))
  /\ filter is_transcribe (trace (run Sample.broken_app Sample.env Sample.request ∅).2)
     = [EvTranscribe (lit "/tmp/tmpk3x9q2ab.wav") (lit "en") false false].
Proof.
  apply (transcription_failure_500 Sample.broken_app Sample.env Sample.request ∅
           Sample.broken_whisper (lit "/tmp/tmpk3x9q2ab.wav") Sample.riff
           (lit "Failed to load audio")).
  - unfold validated. repeat split; compute_done.
  - unfold staged. repeat split; compute_done.
  - reflexivity.
Defined.

(** ** The temporary file *)

(** C1.  When staging succeeded, the run calls [os.remove] once, on the
    staged file, whether the model answered or raised.  When [os.remove]
    does its work the file is gone at the end and the file system is the one
    the run started with.  When [os.remove] fails, the failure is logged as
    a warning, and the handler's outcome is the one it has with any other
    answer of [os.remove]: a response, or the 500 error of the [except]
    clause. *)
Theorem temp_file_removed_once (app : App) (env : Env) (req : Request) (f : FS)
    (m : WhisperModel) (path : pystr) (body : bytes) :
  validated app env req m ->
  staged env req f path body ->
  head (trace (run app env req f).2) = Some (EvTempfile path)
  /\ filter is_remove (trace (run app env req f).2) = [EvRemove path]
  /\ (remove_error env = None ->
      fs (run app env req f).2 !! path = None /\ fs (run app env req f).2 = f)
  /\ (forall msg, remove_error env = Some msg ->
      last (trace (run app env req f).2)
      = Some (EvLog WARNING (lit "Cleanup warning: " ++ msg)))
  /\ (forall r, (run app (with_remove_error r env) req f).1 = (run app env req f).1)
  /\ handled (run app env req f).1.
Proof.
  intros Hv Hs.
  assert (Hfree : f !! path = None).
  { destruct Hs as (Hfresh & _). by apply fresh_temp_find in Hfresh as (_ & ? & _). }
  assert (Hany : forall r, (run app (with_remove_error r env) req f).1
                           = (answer m req (<[path := body]> f) path).1).
  { intros r.
    destruct (with_remove_error_same_checks r _ _ _ _ _ _ _ Hv Hs) as [Hv' Hs'].
    by rewrite (run_staged _ _ _ _ _ _ _ Hv' Hs'). }
  split; [|split; [|split; [|split; [|split]]]].
  - by rewrite (run_staged _ _ _ _ _ _ _ Hv Hs).
  - rewrite (run_staged _ _ _ _ _ _ _ Hv Hs). unfold answer. cbn zeta.
    destruct (transcribe m _ _ _ _ _); [|destruct (utf8_encode_error _)];
      by destruct (remove_error env).
  - intros Hrm. by rewrite (run_staged _ _ _ _ _ _ _ Hv Hs), Hrm.
  - intros msg Hrm. rewrite (run_staged _ _ _ _ _ _ _ Hv Hs), Hrm.
    cbn [snd trace]. by rewrite !last_app.
  - intros r. rewrite Hany. by rewrite (run_staged _ _ _ _ _ _ _ Hv Hs).
  - rewrite (run_staged _ _ _ _ _ _ _ Hv Hs). unfold answer. cbn zeta.
    destruct (transcribe m _ _ _ _ _); [|destruct (utf8_encode_error _)];
      simpl; auto.
Qed.

Lemma temp_file_removed_once_witness :
  filter is_remove
    (trace (run Sample.app (with_remove_error (Some (lit "Permission denied")) Sample.env)
              Sample.request ∅).2)
  = [EvRemove (lit "/tmp/tmpk3x9q2ab.wav")].
Proof.
  refine (proj1 (proj2 (temp_file_removed_once Sample.app
            (with_remove_error (Some (lit "Permission denied")) Sample.env)
            Sample.request ∅ Sample.whisper (lit "/tmp/tmpk3x9q2ab.wav")
            Sample.riff _ _))).
  - unfold validated. repeat split; compute_done.
  - unfold staged. repeat split; compute_done.
Defined.

(** ** How a run can end *)

Lemma except_clause_raises e s :
  (except_clause e s).1
  = Raise (HTTPException 500 (lit "Transcription failed: " ++ exn_str e)).
Proof. reflexivity. Qed.

Lemma finally_clause_outcome env s :
  (finally_clause env s).1 = Return tt
  \/ (finally_clause env s).1 = Raise (UnboundLocalError (lit "temp_path")).
Proof.
  destruct s as [f tr [file|] [p|]]; unfold finally_clause, os_path_exists, os_remove;
    step; auto.
  destruct (bool_decide _); step; auto.
  destruct (remove_error env); step; auto.
  destruct (f !! p); step; auto.
Qed.

(** The [try] statement ends with a response, with the 500 error of the
    [except] clause, or with the [UnboundLocalError] of the [finally]
    block. *)
Lemma try_statement_outcome env (body : M JSONResponse) s :
  match (try_finally (try_except body except_clause) (finally_clause env) s).1 with
  | Return _ => True
  | Raise (HTTPException status _) => status = 500
  | Raise (UnboundLocalError name) => name = lit "temp_path"
  | Raise _ => False
  end.
Proof.
  unfold try_finally, try_except.
  destruct (body s) as [[r|e] s1].
  - destruct (finally_clause_outcome env s1) as [H|H];
      destruct (finally_clause env s1) as [[[]|e'] s2]; simpl in *; by simplify_eq.
  - pose proof (except_clause_raises e s1) as He.
    destruct (except_clause e s1) as [o s2]. simpl in He. subst o.
    destruct (finally_clause_outcome env s2) as [H|H];
      destruct (finally_clause env s2) as [[[]|e'] s3]; simpl in *; by simplify_eq.
Qed.

(** Every way [POST /api/stt] can end. *)
Lemma run_outcome app env req f :
  match (run app env req f).1 with
  | Return _ => True
  | Raise (HTTPException status detail) =>
      (status = 503 /\ model app = None)
      \/ (status = 400 /\ language_of req ∉ keys SUPPORTED_LANGUAGES)
      \/ (status = 400 /\ language_of req ∈ keys SUPPORTED_LANGUAGES
          /\ detail = lit "Invalid format. Allowed: " ++ repr_list allowed_formats)
      \/ status = 500
  | Raise (UnboundLocalError name) => name = lit "temp_path"
  | Raise _ => False
  end.
Proof.
  unfold run, speech_to_text.
  destruct (model app) as [m|]; [|simpl; auto].
  case_bool_decide as Hlang; [simpl; auto|].
  case_bool_decide as Hext; [simpl; auto 10|].
  unfold bind at 1, set_temp_file at 1.
  match goal with
  | |- context [try_finally (try_except ?b except_clause) (finally_clause env) ?s] =>
      pose proof (try_statement_outcome env b s) as H;
      destruct (try_finally (try_except b except_clause) (finally_clause env) s).1
        as [r|[st d|n|k|msg]]
  end; auto.
Qed.

(** ** The default language *)

Lemma hindi_supported : lit "hi" ∈ keys SUPPORTED_LANGUAGES.
Proof. compute_done. Qed.

(** C9.  A request without the [language] form field is handled as the same
    request with [language] set to ["hi"]: the two runs are equal.  The
    default is in place when the language is checked, so the check passes,
    and if such a run ends with a 400 error it is the error of the format
    check. *)
Theorem absent_language_is_hindi (app : App) (env : Env) (req : Request) (f : FS) :
  form_language req = None ->
  run app env req f = run app env (with_language (Some (lit "hi")) req) f
  /\ language_of req = lit "hi"
  /\ language_of req ∈ keys SUPPORTED_LANGUAGES
  /\ (forall detail,
        (run app env req f).1 = Raise (HTTPException 400 detail) ->
        detail = lit "Invalid format. Allowed: ['.m4a', '.wav', '.mp3', '.ogg', '.flac']").
Proof.
  intros Hnone.
  assert (Hlang : language_of req = lit "hi").
  { unfold language_of. by rewrite Hnone. }
  split; [|split; [done|split]].
  - unfold run, speech_to_text, try_body, audio_read_all, language_of.
    simpl. by rewrite Hnone.
  - rewrite Hlang. apply hindi_supported.
  - intros detail Hrun. pose proof (run_outcome app env req f) as Hout.
    rewrite Hrun in Hout.
    destruct Hout as [[? _]|[[_ Hbad]|[(_ & _ & ->)|?]]]; [done| |done|done].
    destruct Hbad. rewrite Hlang. apply hindi_supported.
Qed.

Lemma absent_language_is_hindi_witness :
  run Sample.app Sample.env Sample.request_no_language ∅
  = run Sample.app Sample.env
      (with_language (Some (lit "hi")) Sample.request_no_language) ∅.
Proof.
  refine (proj1 (absent_language_is_hindi Sample.app Sample.env
                   Sample.request_no_language ∅ _)).
  reflexivity.
Defined.

(** The run without the form field, evaluated. *)
Example absent_language_sample :
  (run Sample.app Sample.env Sample.request_no_language ∅).1
  = Return {| status_code := 200;
              content :=
                [ (lit "success", JBool true);
                  (lit "text", JStr (lit "namaste duniya"));
                  (lit "language", JStr (lit "hi"));
                  (lit "language_name", JStr (lit "Hindi"));
                  (lit "filename", JStr (lit "clip.WAV")) ] |}.
Proof. vm_compute. reflexivity. Qed.

(** ** A failure while the upload is staged *)

(** When the temporary file is created and reading or writing the upload
    then fails, [temp_file] is bound and [temp_path] is not: the [finally]
    block raises [UnboundLocalError] in place of the 500 error of the
    [except] clause, before it reaches [os.remove]. *)
Lemma run_write_failure app env req f m path body msg :
  validated app env req m ->
  fresh_temp env (file_ext_of env req) f = Some path ->
  audio_read req = inr body ->
  write_error env = Some msg ->
  (run app env req f).1 = Raise (UnboundLocalError (lit "temp_path"))
  /\ fs (run app env req f).2 = <[path := []]> f
  /\ filter is_remove (trace (run app env req f).2) = [].
Proof.
  intros (Hm & Hlang & Hext) Hfresh Hread Hwrite.
  apply fresh_temp_find in Hfresh as (Hopen & Hfree & name & Hfind & ->).
  unfold run, speech_to_text. rewrite Hm.
  rewrite (bool_decide_eq_false_2 (language_of req ∉ _)) by (intros H; by apply H).
  fold (file_ext_of env req).
  rewrite (bool_decide_eq_false_2 (file_ext_of env req ∉ _)) by (intros H; by apply H).
  unfold try_body, with_temp_file, NamedTemporaryFile, audio_read_all, file_write,
    file_close, except_clause, finally_clause.
  step. rewrite Hopen, Hfind. step. rewrite Hread. step. rewrite Hwrite. step.
  by destruct (close_error env).
Qed.

(** C2.  The disk is full: the temporary file of a valid upload is created
    and writing the upload to it fails.  The handler then ends with an
    [UnboundLocalError], which is no [HTTPException]: the fault leaves the
    handler, [os.remove] is not called and the temporary file stays behind.
    The claim that every error is turned into a 400, 500 or 503 answer fails
    on this run. *)
Theorem staging_write_failure_escapes :
  (run Sample.app Sample.env_disk_full Sample.request_long ∅).1
  = Raise (UnboundLocalError (lit "temp_path"))
  /\ ~ handled (run Sample.app Sample.env_disk_full Sample.request_long ∅).1
  /\ fs (run Sample.app Sample.env_disk_full Sample.request_long ∅).2
       !! lit "/tmp/tmpk3x9q2ab.wav" = Some []
  /\ filter is_remove
       (trace (run Sample.app Sample.env_disk_full Sample.request_long ∅).2)
     = [].
Proof.
  destruct (run_write_failure Sample.app Sample.env_disk_full Sample.request_long ∅
              Sample.whisper (lit "/tmp/tmpk3x9q2ab.wav") Sample.long_audio
              (lit "[Errno 28] No space left on device"))
    as (Hout & Hfs & Hrm).
  - unfold validated. repeat split; compute_done.
  - compute_done.
  - reflexivity.
  - reflexivity.
  - rewrite Hout, Hfs, Hrm. split; [done|]. split; [by intros []|].
    split; [apply lookup_insert_eq|done].
Qed.

(** * Further properties *)

(** ** The stages of a run *)

Ltac pass_checks env req Hm :=
  unfold run, speech_to_text; rewrite Hm;
  rewrite (bool_decide_eq_false_2 (language_of req ∉ _)) by (intros H; by apply H);
  fold (file_ext_of env req);
  rewrite (bool_decide_eq_false_2 (file_ext_of env req ∉ _)) by (intros H; by apply H).

Ltac unfold_calls :=
  unfold try_body, with_temp_file, NamedTemporaryFile, audio_read_all, file_write,
    file_close, model_transcribe, getitem, except_clause, finally_clause,
    os_path_exists, os_remove.

Lemma run_create_failure app env req f m msg :
  validated app env req m ->
  tempfile_error env (file_ext_of env req) f = Some msg ->
  run app env req f = (failed msg, mkState f [error_logged msg] None None).
Proof.
  intros (Hm & Hlang & Hext) Herr. pass_checks env req Hm.
  unfold tempfile_error in Herr. unfold_calls. step.
  destruct (open_error env) as [msg'|]; [by simplify_eq|].
  destruct (find _ _); [done|]. by simplify_eq.
Qed.

Lemma run_read_failure app env req f m path msg :
  validated app env req m ->
  fresh_temp env (file_ext_of env req) f = Some path ->
  audio_read req = inl msg ->
  run app env req f
  = (Raise (UnboundLocalError (lit "temp_path")),
     mkState (<[path := []]> f)
       [EvTempfile path; EvRead;
        error_logged (default msg (close_error env))]
       (Some path) None).
Proof.
  intros (Hm & Hlang & Hext) Hfresh Hread.
  apply fresh_temp_find in Hfresh as (Hopen & Hfree & name & Hfind & ->).
  pass_checks env req Hm. unfold_calls.
  step. rewrite Hopen, Hfind. step. rewrite Hread. step.
  by destruct (close_error env).
Qed.

Lemma run_write_failure_state app env req f m path body msg :
  validated app env req m ->
  fresh_temp env (file_ext_of env req) f = Some path ->
  audio_read req = inr body ->
  write_error env = Some msg ->
  run app env req f
  = (Raise (UnboundLocalError (lit "temp_path")),
     mkState (<[path := []]> f)
       [EvTempfile path; EvRead; EvWrite path;
        error_logged (default msg (close_error env))]
       (Some path) None).
Proof.
  intros (Hm & Hlang & Hext) Hfresh Hread Hwrite.
  apply fresh_temp_find in Hfresh as (Hopen & Hfree & name & Hfind & ->).
  pass_checks env req Hm. unfold_calls.
  step. rewrite Hopen, Hfind. step. rewrite Hread. step. rewrite Hwrite. step.
  by destruct (close_error env).
Qed.

Lemma run_close_failure app env req f m path body msg :
  validated app env req m ->
  fresh_temp env (file_ext_of env req) f = Some path ->
  audio_read req = inr body ->
  write_error env = None ->
  close_error env = Some msg ->
  run app env req f
  = (failed msg,
     mkState
       (match remove_error env with None => f | Some _ => <[path := body]> f end)
       [EvTempfile path; EvRead; EvWrite path; error_logged msg;
        EvExists path; EvRemove path;
        match remove_error env with
        | None => EvLog INFO (wastebasket ++ lit " Temporary file deleted")
        | Some msg' => EvLog WARNING (lit "Cleanup warning: " ++ msg')
        end]
       (Some path) (Some path)).
Proof.
  intros (Hm & Hlang & Hext) Hfresh Hread Hwrite Hclose.
  apply fresh_temp_find in Hfresh as (Hopen & Hfree & name & Hfind & ->).
  pass_checks env req Hm. unfold_calls.
  step. rewrite Hopen, Hfind. step. rewrite Hread. step. rewrite Hwrite. step.
  rewrite Hclose. step.
  rewrite !lookup_insert_eq, insert_insert_eq. simpl.
  destruct (remove_error env); simpl; [done|].
  rewrite lookup_insert_eq. simpl.
  by rewrite delete_insert_eq, delete_id.
Qed.

Lemma scenario_cover env req f : scenario env req f.
Proof.
  destruct (tempfile_error env (file_ext_of env req) f) as [msg|] eqn:Herr.
  { by eapply CreateFails. }
  assert (exists path, fresh_temp env (file_ext_of env req) f = Some path) as [path Hp].
  { unfold tempfile_error in Herr. unfold fresh_temp.
    destruct (open_error env); [done|]. destruct (find _ _); [eauto|done]. }
  destruct (audio_read req) as [msg|body] eqn:Hread.
  { by eapply ReadFails. }
  destruct (write_error env) as [msg|] eqn:Hwrite.
  { by eapply WriteFails. }
  destruct (close_error env) as [msg|] eqn:Hclose.
  { by eapply CloseFails. }
  by eapply Staged.
Qed.

Lemma checks_cover app env req :
  model app = None
  \/ (exists m, model app = Some m /\ language_of req ∉ keys SUPPORTED_LANGUAGES)
  \/ (exists m, model app = Some m /\ language_of req ∈ keys SUPPORTED_LANGUAGES
                /\ file_ext_of env req ∉ allowed_formats)
  \/ (exists m, validated app env req m).
Proof.
  destruct (model app) as [m|] eqn:Hm; [|by left]. right.
  destruct (decide (language_of req ∈ keys SUPPORTED_LANGUAGES)); [|by left; eauto].
  right.
  destruct (decide (file_ext_of env req ∈ allowed_formats)); [|by left; eauto].
  right. by exists m.
Qed.

(** Case analysis on a run: one goal for each of the eight ways it goes. *)
Ltac all_runs app env req f :=
  let m := fresh "m" in
  let Hm := fresh "Hm" in let Hl := fresh "Hlang" in let He := fresh "Hext" in
  let Hv := fresh "Hv" in
  destruct (checks_cover app env req)
    as [Hm|[(m & Hm & Hl)|[(m & Hm & Hl & He)|(m & Hv)]]];
  [ rewrite ?(run_no_model app env req f Hm)
  | rewrite ?(run_bad_language app env req f m Hm Hl)
  | rewrite ?(run_bad_format app env req f m Hm Hl He)
  | let msg := fresh "msg" in let path := fresh "path" in let body := fresh "body" in
    let Hc := fresh "Hcreate" in let Hr := fresh "Hread" in
    let Hw := fresh "Hwrite" in let Hcl := fresh "Hclose" in let Hs := fresh "Hstaged" in
    destruct (scenario_cover env req f)
      as [msg Hc|path msg Hc Hr|path body msg Hc Hr Hw|path body msg Hc Hr Hw Hcl
         |path body Hs];
    [ rewrite ?(run_create_failure app env req f m msg Hv Hc)
    | rewrite ?(run_read_failure app env req f m path msg Hv Hc Hr)
    | rewrite ?(run_write_failure_state app env req f m path body msg Hv Hc Hr Hw)
    | rewrite ?(run_close_failure app env req f m path body msg Hv Hc Hr Hw Hcl)
    | rewrite ?(run_staged app env req f m path body Hv Hs) ] ].

Lemma fresh_temp_free env suffix f path :
  fresh_temp env suffix f = Some path -> f !! path = None.
Proof. intros H. by apply fresh_temp_find in H as (_ & ? & _). Qed.

Lemma staged_free env req f path body : staged env req f path body -> f !! path = None.
Proof. intros (H & _). by eapply fresh_temp_free. Qed.

(** C7.  On every successful transcription, that is whenever the handler
    returns a response, the [text] entry of the response is the text of the
    model's result with the white space at its two ends taken off: the
    model's text is that entry between two runs of white space, and the
    entry neither starts nor ends with white space. *)
Theorem response_text_is_stripped (app : App) (env : Env) (req : Request) (f : FS)
    (response : JSONResponse) :
  (run app env req f).1 = Return response ->
  exists m path body result txt l t,
    validated app env req m
    /\ staged env req f path body
    /\ transcribe m (<[path := body]> f) path (language_of req) false false
       = inr result
    /\ dict_get (content response) (lit "text") = Some (JStr txt)
    /\ txt = strip (text result)
    /\ text result = l ++ txt ++ t
    /\ forallb isspace l = true /\ forallb isspace t = true
    /\ (forall c, head txt = Some c -> isspace c = false)
    /\ (forall c, last txt = Some c -> isspace c = false).
Proof.
  all_runs app env req f; unfold failed; simpl; try done.
  unfold answer.
  destruct (transcribe m _ _ _ _ _) as [msg|result] eqn:Hres; [done|].
  cbn zeta. destruct (utf8_encode_error _); [done|].
  simpl. intros [= <-].
  destruct (strip_spec (text result)) as (l & t & Hsplit & Hl & Ht & Hhd & Hlast).
  exists m, path, body, result, (strip (text result)), l, t.
  split; [exact Hv|]. split; [exact Hstaged|]. split; [exact Hres|].
  split; [reflexivity|]. repeat split; done.
Qed.

Lemma response_text_is_stripped_witness :
  exists m path body result txt l t,
    validated Sample.app Sample.env Sample.request m
    /\ staged Sample.env Sample.request ∅ path body
    /\ transcribe m (<[path := body]> ∅) path (language_of Sample.request) false false
       = inr result
    /\ dict_get
         (success_content (lit "namaste duniya") (lit "en") (lit "English")
            (lit "clip.WAV"))
         (lit "text") = Some (JStr txt)
    /\ txt = strip (text result)
    /\ text result = l ++ txt ++ t
    /\ forallb isspace l = true /\ forallb isspace t = true
    /\ (forall c, head txt = Some c -> isspace c = false)
    /\ (forall c, last txt = Some c -> isspace c = false).
Proof.
  apply (response_text_is_stripped Sample.app Sample.env Sample.request ∅
           {| status_code := 200;
              content := success_content (lit "namaste duniya") (lit "en")
                           (lit "English") (lit "clip.WAV") |}).
  vm_compute. reflexivity.
Defined.

(** X4.  Every file that exists before the request exists after it with the
    same content, and the run adds at most one file, under a name that was
    free. *)
Theorem existing_files_untouched (app : App) (env : Env) (req : Request) (f : FS) :
  (fs (run app env req f).2 = f
   \/ exists path data, f !! path = None /\ fs (run app env req f).2 = <[path := data]> f)
  /\ map_Forall (fun p data => fs (run app env req f).2 !! p = Some data) f.
Proof.
  assert (Hshape : fs (run app env req f).2 = f
   \/ exists path data, f !! path = None /\ fs (run app env req f).2 = <[path := data]> f).
  { all_runs app env req f; simpl; auto.
    - right. exists path, []. eauto using fresh_temp_free.
    - right. exists path, []. eauto using fresh_temp_free.
    - destruct (remove_error env); [|by left].
      right. exists path, body. eauto using fresh_temp_free.
    - destruct (remove_error env); [|by left].
      right. exists path, body. eauto using staged_free. }
  split; [done|].
  intros p data Hp. destruct Hshape as [->|(path & d & Hfree & ->)]; [done|].
  rewrite lookup_insert_ne; [done|]. intros ->. by rewrite Hfree in Hp.
Qed.

#[local] Arguments lit : simpl never.

(** X5.  When [os.remove] works and the run ends with a response or an
    [HTTPException], the file system at the end is the one the run started
    with: no temporary file outlives an answered request. *)
Theorem handled_run_restores_files (app : App) (env : Env) (req : Request) (f : FS) :
  remove_error env = None ->
  handled (run app env req f).1 ->
  fs (run app env req f).2 = f.
Proof.
  intros Hrm. all_runs app env req f; simpl; try done; by rewrite Hrm.
Qed.

(** X6.  In one run the handler creates at most one temporary file, calls
    the model at most once and calls [os.remove] at most once. *)
Theorem at_most_one_call_each (app : App) (env : Env) (req : Request) (f : FS) :
  (length (filter is_tempfile (trace (run app env req f).2)) ≤ 1)%nat
  /\ (length (filter is_transcribe (trace (run app env req f).2)) ≤ 1)%nat
  /\ (length (filter is_remove (trace (run app env req f).2)) ≤ 1)%nat.
Proof.
  all_runs app env req f; unfold answer, error_logged; simpl;
    repeat case_match; simpl; lia.
Qed.

(** X7.  Every path the handler writes to, hands to the model, tests with
    [os.path.exists] or removes is the path of the temporary file this run
    created, and that path held no file before the request. *)
Theorem only_own_file_touched (app : App) (env : Env) (req : Request) (f : FS) :
  Forall (fun ev =>
            match touched_path ev with
            | Some p => EvTempfile p ∈ trace (run app env req f).2 /\ f !! p = None
            | None => True
            end)
         (trace (run app env req f).2).
Proof.
  all_runs app env req f; unfold answer, error_logged; simpl;
    try (apply fresh_temp_free in Hcreate); try (apply staged_free in Hstaged);
    repeat case_match; simpl;
    repeat (apply Forall_cons; split; [first [done|split; [set_solver|done]]|]);
    apply Forall_nil_2.
Qed.

(** X8.  Whenever the handler calls the model it passes the language of
    the request (the form field or its default), [fp16=False] and
    [verbose=False]. *)
Theorem model_call_arguments (app : App) (env : Env) (req : Request) (f : FS) :
  Forall (fun ev =>
            match ev with
            | EvTranscribe _ language fp16 verbose =>
                language = language_of req /\ fp16 = false /\ verbose = false
            | _ => True
            end)
         (trace (run app env req f).2).
Proof.
  all_runs app env req f; unfold answer, error_logged; simpl; repeat case_match; simpl;
    repeat (apply Forall_cons; split; [done|]); apply Forall_nil_2.
Qed.

(** X9.  The handler answers 503 exactly when the model is not loaded. *)
Theorem unavailable_iff_no_model (app : App) (env : Env) (req : Request) (f : FS) :
  (exists detail, (run app env req f).1 = Raise (HTTPException 503 detail))
  <-> model app = None.
Proof.
  split.
  - intros [detail Hrun]. revert Hrun.
    all_runs app env req f; unfold answer, failed, error_logged; simpl; try done;
      repeat case_match; simpl; done.
  - intros Hm. rewrite (run_no_model app env req f Hm). eauto.
Qed.

(** X10.  Every 500 error of the handler has a detail that starts with
    ["Transcription failed: "], also when the failure came from staging the
    upload and not from the model. *)
Theorem error_500_detail (app : App) (env : Env) (req : Request) (f : FS) (detail : pystr) :
  (run app env req f).1 = Raise (HTTPException 500 detail) ->
  exists msg, detail = lit "Transcription failed: " ++ msg.
Proof.
  all_runs app env req f; unfold answer, failed, error_logged; simpl; try done;
    repeat case_match; simpl; intros; simplify_eq; eauto.
Qed.

Lemma temp_name_suffix env suffix name : suffix `suffix_of` temp_name env suffix name.
Proof.
  unfold temp_name. exists (tempdir env ++ lit "/" ++ lit "tmp" ++ name).
  by rewrite <- !app_assoc.
Qed.

Lemma fresh_temp_suffix env suffix f path :
  fresh_temp env suffix f = Some path -> suffix `suffix_of` path.
Proof.
  intros H. apply fresh_temp_find in H as (_ & _ & name & _ & ->).
  apply temp_name_suffix.
Qed.

(** X11.  The temporary file a run creates has a name that was free and
    that ends with the lower-cased extension of the upload, which is one of
    the five allowed formats. *)
Theorem temp_file_name (app : App) (env : Env) (req : Request) (f : FS) :
  Forall (fun ev =>
            match ev with
            | EvTempfile path =>
                f !! path = None
                /\ file_ext_of env req ∈ allowed_formats
                /\ file_ext_of env req `suffix_of` path
            | _ => True
            end)
         (trace (run app env req f).2).
Proof.
  all_runs app env req f; unfold answer, error_logged; simpl;
    try (destruct Hstaged as (Hcreate & _));
    try (destruct Hv as (_ & _ & Hext));
    try (pose proof (fresh_temp_free _ _ _ _ Hcreate));
    try (pose proof (fresh_temp_suffix _ _ _ _ Hcreate));
    repeat case_match; simpl;
    repeat (apply Forall_cons; split; [done|]); apply Forall_nil_2.
Qed.

Ltac sample_checks := unfold validated, staged; repeat split; compute_done.

(** X1.  When [NamedTemporaryFile] cannot create the file (the directory
    refuses it, or every name it tries is taken), the handler answers with
    the 500 error carrying the message of the [OSError]; the file system is
    left as it was and no file is written, passed to the model, tested or
    removed. *)
Theorem tempfile_failure_answer (app : App) (env : Env) (req : Request) (f : FS)
    (m : WhisperModel) (msg : pystr) :
  validated app env req m ->
  tempfile_error env (file_ext_of env req) f = Some msg ->
  (run app env req f).1 = Raise (HTTPException 500 (lit "Transcription failed: " ++ msg))
  /\ fs (run app env req f).2 = f
  /\ filter (fun ev => is_Some (touched_path ev)) (trace (run app env req f).2) = []
  /\ filter is_tempfile (trace (run app env req f).2) = [].
Proof.
  intros Hv Herr. by rewrite (run_create_failure _ _ _ _ _ _ Hv Herr).
Qed.

Lemma tempfile_failure_answer_witness :
  (run Sample.app Cases.env_no_tmp Sample.request ∅).1
  = Raise (HTTPException 500
             (lit "Transcription failed: "
              ++ lit "[Errno 13] Permission denied: '/tmp/tmpk3x9q2ab.wav'")).
Proof.
  refine (proj1 (tempfile_failure_answer Sample.app Cases.env_no_tmp Sample.request ∅
                   Sample.whisper _ _ _)).
  - sample_checks.
  - reflexivity.
Defined.

(** X2.  When the upload is written and closing the file fails, the handler
    answers with the 500 error carrying that message; [temp_path] is bound
    by then, so the file is removed: the model is not called, [os.remove] is
    called once on the file and, when it does its work, the file system is
    the one the run started with. *)
Theorem close_failure_cleans_up (app : App) (env : Env) (req : Request) (f : FS)
    (m : WhisperModel) (path : pystr) (body : bytes) (msg : pystr) :
  validated app env req m ->
  fresh_temp env (file_ext_of env req) f = Some path ->
  audio_read req = inr body ->
  write_error env = None ->
  close_error env = Some msg ->
  (run app env req f).1 = Raise (HTTPException 500 (lit "Transcription failed: " ++ msg))
  /\ filter is_transcribe (trace (run app env req f).2) = []
  /\ filter is_remove (trace (run app env req f).2) = [EvRemove path]
  /\ (remove_error env = None -> fs (run app env req f).2 = f).
Proof.
  intros Hv Hc Hr Hw Hcl. rewrite (run_close_failure _ _ _ _ _ _ _ _ Hv Hc Hr Hw Hcl).
  split; [done|]. split; [by destruct (remove_error env)|].
  split; [by destruct (remove_error env)|]. by intros ->.
Qed.

Lemma close_failure_cleans_up_witness :
  (run Sample.app Cases.env_close_fails Sample.request ∅).1
  = Raise (HTTPException 500
             (lit "Transcription failed: " ++ lit "[Errno 28] No space left on device"))
  /\ fs (run Sample.app Cases.env_close_fails Sample.request ∅).2 = ∅.
Proof.
  destruct (close_failure_cleans_up Sample.app Cases.env_close_fails Sample.request ∅
              Sample.whisper (lit "/tmp/tmpk3x9q2ab.wav") Sample.riff
              (lit "[Errno 28] No space left on device"))
    as (Hout & _ & _ & Hfs).
  - sample_checks.
  - compute_done.
  - reflexivity.
  - reflexivity.
  - reflexivity.
  - split; [exact Hout|]. apply Hfs. reflexivity.
Defined.



(** X12.  The handler returns a response only with status 200 and only
    after the request passed the three checks, the upload was staged and the
    model returned a result; the [text] entry is that result's text,
    stripped. *)
Theorem success_only_after_transcription (app : App) (env : Env) (req : Request)
    (f : FS) (response : JSONResponse) :
  (run app env req f).1 = Return response ->
  status_code response = 200
  /\ exists m path body result,
       validated app env req m /\ staged env req f path body
       /\ transcribe m (<[path := body]> f) path (language_of req) false false
          = inr result
       /\ dict_get (content response) (lit "text") = Some (JStr (strip (text result))).
Proof.
  all_runs app env req f; unfold failed; simpl; try done.
  unfold answer.
  destruct (transcribe m _ _ _ _ _) as [msg|result] eqn:Hres; [done|].
  cbn zeta. destruct (utf8_encode_error _); [done|].
  simpl. intros [= <-]. split; [done|]. by exists m, path, body, result.
Qed.

Lemma success_only_after_transcription_witness :
  exists m path body result,
    validated Sample.app Sample.env Sample.request m
    /\ staged Sample.env Sample.request ∅ path body
    /\ transcribe m (<[path := body]> ∅) path (language_of Sample.request) false false
       = inr result
    /\ dict_get
         [ (lit "success", JBool true);
           (lit "text", JStr (lit "namaste duniya"));
           (lit "language", JStr (lit "en"));
           (lit "language_name", JStr (lit "English"));
           (lit "filename", JStr (lit "clip.WAV")) ]
         (lit "text") = Some (JStr (strip (text result))).
Proof.
  refine (proj2 (success_only_after_transcription Sample.app Sample.env Sample.request ∅
                   {| status_code := 200;
                      content :=
                        [ (lit "success", JBool true);
                          (lit "text", JStr (lit "namaste duniya"));
                          (lit "language", JStr (lit "en"));
                          (lit "language_name", JStr (lit "English"));
                          (lit "filename", JStr (lit "clip.WAV")) ] |} _)).
  vm_compute. reflexivity.
Defined.

Lemma handled_run_restores_files_witness :
  fs (run Sample.broken_app Sample.env Sample.request ∅).2 = ∅.
Proof.
  apply (handled_run_restores_files Sample.broken_app Sample.env Sample.request ∅).
  - reflexivity.
  - vm_compute. auto.
Defined.

Lemma error_500_detail_witness :
  exists msg,
    lit "Transcription failed: Failed to load audio" = lit "Transcription failed: " ++ msg.
Proof.
  apply (error_500_detail Sample.broken_app Sample.env Sample.request ∅).
  vm_compute. reflexivity.
Defined.

(** ** More on [strip] *)

Lemma lstrip_blank (s : pystr) : forallb isspace s = true -> lstrip s = [].
Proof.
  induction s as [|c s IH]; [done|]. simpl.
  intros [Hc Hs]%andb_true_iff. rewrite Hc. auto.
Qed.

Lemma strip_blank (s : pystr) : forallb isspace s = true -> strip s = [].
Proof. intros H. unfold strip. by rewrite (lstrip_blank s H). Qed.

Lemma lstrip_clean (s : pystr) :
  (forall c, head s = Some c -> isspace c = false) -> lstrip s = s.
Proof. destruct s as [|c s]; [done|]. simpl. intros H. by rewrite (H c). Qed.

Lemma head_rev {A} (l : list A) : head (rev l) = last l.
Proof. rewrite <- (rev_involutive l) at 2. symmetry. apply last_rev. Qed.

Lemma strip_clean (s : pystr) :
  (forall c, head s = Some c -> isspace c = false) ->
  (forall c, last s = Some c -> isspace c = false) ->
  strip s = s.
Proof.
  intros Hhd Hlast. unfold strip, rstrip. rewrite (lstrip_clean s Hhd).
  rewrite lstrip_clean; [apply rev_involutive|].
  intros c. rewrite head_rev. apply Hlast.
Qed.

(** X13.  When the model returns a text of white space only (or an empty
    text) and the file name holds no lone surrogate, the handler still
    answers 200 with [success: true], and the [text] entry is the empty
    string. *)
Theorem blank_transcription_empty_text (app : App) (env : Env) (req : Request) (f : FS)
    (m : WhisperModel) (path : pystr) (body : bytes) (result : TranscribeResult) :
  validated app env req m ->
  staged env req f path body ->
  transcribe m (<[path := body]> f) path (language_of req) false false = inr result ->
  forallb isspace (text result) = true ->
  no_surrogate (audio_filename req) = true ->
  exists response,
    (run app env req f).1 = Return response
    /\ status_code response = 200
    /\ dict_get (content response) (lit "success") = Some (JBool true)
    /\ dict_get (content response) (lit "text") = Some (JStr []).
Proof.
  intros Hv Hs Hres Hblank Hfile. rewrite (run_staged _ _ _ _ _ _ _ Hv Hs).
  destruct Hv as (_ & Hlang & _).
  destruct (dict_get_keys _ _ Hlang) as [name Hname].
  unfold answer. rewrite Hres, (strip_blank _ Hblank), Hname.
  cbn [default from_option id].
  rewrite (answer_encodable [] _ _ _ Hname eq_refl Hfile). eexists. by split.
Qed.

Lemma blank_transcription_empty_text_witness :
  exists response,
    (run {| model := Some Cases.blank_whisper |} Sample.env Sample.request ∅).1
    = Return response
    /\ status_code response = 200
    /\ dict_get (content response) (lit "success") = Some (JBool true)
    /\ dict_get (content response) (lit "text") = Some (JStr []).
Proof.
  apply (blank_transcription_empty_text {| model := Some Cases.blank_whisper |}
           Sample.env Sample.request ∅ Cases.blank_whisper
           (lit "/tmp/tmpk3x9q2ab.wav") Sample.riff
           {| text := [32%N; 10%N; 12288%N] |}).
  - sample_checks.
  - sample_checks.
  - reflexivity.
  - reflexivity.
  - reflexivity.
Defined.

(** X14.  When the model's text neither starts nor ends with white space,
    and neither it nor the file name holds a lone surrogate, the handler
    returns a response whose [text] entry is that text unchanged. *)
Theorem clean_text_returned_unchanged (app : App) (env : Env) (req : Request) (f : FS)
    (m : WhisperModel) (path : pystr) (body : bytes) (result : TranscribeResult) :
  validated app env req m ->
  staged env req f path body ->
  transcribe m (<[path := body]> f) path (language_of req) false false = inr result ->
  (forall c, head (text result) = Some c -> isspace c = false) ->
  (forall c, last (text result) = Some c -> isspace c = false) ->
  no_surrogate (text result) = true ->
  no_surrogate (audio_filename req) = true ->
  exists response,
    (run app env req f).1 = Return response
    /\ dict_get (content response) (lit "text") = Some (JStr (text result)).
Proof.
  intros Hv Hs Hres Hhd Hlast Htext Hfile. rewrite (run_staged _ _ _ _ _ _ _ Hv Hs).
  destruct Hv as (_ & Hlang & _).
  destruct (dict_get_keys _ _ Hlang) as [name Hname].
  unfold answer. rewrite Hres, (strip_clean _ Hhd Hlast), Hname.
  cbn [default from_option id].
  rewrite (answer_encodable _ _ _ _ Hname Htext Hfile). eexists. by split.
Qed.

Lemma clean_text_returned_unchanged_witness :
  exists response,
    (run {| model := Some Cases.clean_whisper |} Sample.env Sample.request ∅).1
    = Return response
    /\ dict_get (content response) (lit "text") = Some (JStr (lit "good morning")).
Proof.
  apply (clean_text_returned_unchanged {| model := Some Cases.clean_whisper |}
           Sample.env Sample.request ∅ Cases.clean_whisper
           (lit "/tmp/tmpk3x9q2ab.wav") Sample.riff {| text := lit "good morning" |}).
  - sample_checks.
  - sample_checks.
  - reflexivity.
  - intros c [= <-]. reflexivity.
  - intros c [= <-]. reflexivity.
  - reflexivity.
  - reflexivity.
Defined.

(** ** More on [os.path.splitext] *)

Lemma rfind_from_absent (c : N) (s : pystr) (i : Z) :
  c ∉ s -> rfind_from c s i = -1.
Proof.
  revert i. induction s as [|x s IH]; intros i Hc; [done|].
  apply not_elem_of_cons in Hc as [Hne Hc]. simpl. rewrite (IH _ Hc). simpl.
  destruct (N.eqb_spec x c); [by subst|done].
Qed.

Lemma rfind_from_last (c : N) (a b : pystr) (i : Z) :
  0 <= i -> c ∉ b -> rfind_from c (a ++ c :: b) i = i + Z.of_nat (length a).
Proof.
  revert i. induction a as [|x a IH]; intros i Hi Hc.
  - simpl. rewrite (rfind_from_absent c b (i + 1) Hc). simpl.
    rewrite N.eqb_refl. lia.
  - cbn [app rfind_from length]. rewrite (IH (i + 1)) by (lia || done).
    destruct (Z.leb_spec 0 (i + 1 + Z.of_nat (length a))); lia.
Qed.

Lemma splitext_no_dot (p : pystr) : OsPath.extsep ∉ p -> OsPath.splitext p = (p, []).
Proof.
  intros Hdot. unfold OsPath.splitext, rfind.
  rewrite (rfind_from_absent OsPath.extsep p 0 Hdot).
  assert (Hlow : forall s i, 0 <= i -> -1 <= rfind_from OsPath.sep s i).
  { induction s as [|x s IH]; intros i Hi; simpl; [lia|].
    assert (0 <= i + 1) as Hi' by lia. specialize (IH (i + 1) Hi').
    destruct (Z.leb_spec 0 (rfind_from OsPath.sep s (i + 1))); [lia|].
    destruct (x =? OsPath.sep)%N; lia. }
  assert (0 <= 0) as H0 by lia. specialize (Hlow p 0 H0).
  destruct (Z.ltb_spec (rfind_from OsPath.sep p 0) (-1)); [lia|done].
Qed.

Lemma splitext_plain (stem e : pystr) (c : N) :
  head stem = Some c -> c <> OsPath.extsep ->
  OsPath.sep ∉ stem -> OsPath.sep ∉ e -> OsPath.extsep ∉ e ->
  OsPath.splitext (stem ++ OsPath.extsep :: e) = (stem, OsPath.extsep :: e).
Proof.
  intros Hhd Hc Hsep Hsep' Hdot. unfold OsPath.splitext, rfind.
  rewrite (rfind_from_last OsPath.extsep stem e 0) by (lia || done).
  rewrite (rfind_from_absent OsPath.sep).
  2:{ rewrite elem_of_app, elem_of_cons. intros [?|[?|?]]; done. }
  destruct stem as [|c' stem]; [done|]. simpl in Hhd. simplify_eq.
  replace (0 + Z.of_nat (length (c :: stem))) with (Z.of_nat (S (length stem)))
    by (simpl; lia).
  replace (Z.of_nat (S (length stem)) - (-1 + 1)) with (Z.of_nat (S (length stem)))
    by lia.
  rewrite Nat2Z.id. simpl Z.to_nat.
  destruct (Z.ltb_spec (-1) (Z.of_nat (S (length stem)))); [|lia].
  cbn [andb OsPath.has_name_before_dot].
  rewrite bool_decide_eq_false_2 by (simpl; congruence).
  change (S (length stem)) with (length (c :: stem)).
  by rewrite take_app_length, drop_app_length.
Qed.

(** X15.  With the model loaded and a supported language, an upload whose
    file name has no period has the empty extension and is answered by the
    400 format error, before anything is staged. *)
Theorem name_without_dot_rejected (app : App) (env : Env) (req : Request) (f : FS)
    (m : WhisperModel) :
  model app = Some m ->
  language_of req ∈ keys SUPPORTED_LANGUAGES ->
  OsPath.extsep ∉ audio_filename req ->
  file_ext_of env req = []
  /\ run app env req f
     = (Raise (HTTPException 400
                 (lit "Invalid format. Allowed: ['.m4a', '.wav', '.mp3', '.ogg', '.flac']")),
        init_state f).
Proof.
  intros Hm Hlang Hdot.
  assert (Hext : file_ext_of env req = []).
  { unfold file_ext_of. by rewrite (splitext_no_dot _ Hdot). }
  split; [done|].
  rewrite (run_bad_format app env req f m Hm Hlang), repr_allowed_formats; [done|].
  rewrite Hext. compute_done.
Qed.

Lemma name_without_dot_rejected_witness :
  file_ext_of Sample.env Cases.request_no_dot = []
  /\ run Sample.app Sample.env Cases.request_no_dot ∅
     = (Raise (HTTPException 400
                 (lit "Invalid format. Allowed: ['.m4a', '.wav', '.mp3', '.ogg', '.flac']")),
        init_state ∅).
Proof.
  apply (name_without_dot_rejected Sample.app Sample.env Cases.request_no_dot ∅
           Sample.whisper).
  - reflexivity.
  - compute_done.
  - compute_done.
Defined.

Lemma ascii_lower_fixes_nonletter (x y : N) :
  ascii_lower x = y -> (y < 97 \/ 122 < y)%N -> x = y.
Proof.
  unfold ascii_lower. intros H Hy.
  destruct (N.leb_spec 65 x), (N.leb_spec x 90); simpl in H; lia.
Qed.

Lemma allowed_formats_shape :
  Forall (fun fmt => head fmt = Some OsPath.extsep
                     /\ (OsPath.extsep ∉ tail fmt) /\ (OsPath.sep ∉ tail fmt))
         allowed_formats.
Proof. compute_done. Qed.

Lemma ascii_lower_elem (x : N) (l : pystr) :
  ascii_lower x = x -> x ∈ l -> x ∈ map ascii_lower l.
Proof. intros Hx Hin. rewrite <- Hx. by apply list_elem_of_fmap_2. Qed.

(** An extension that lower-cases to an allowed format is a period followed
    by characters among which there is no period and no slash. *)
Lemma allowed_ext_shape (ext : pystr) :
  map ascii_lower ext ∈ allowed_formats ->
  exists e, ext = OsPath.extsep :: e /\ (OsPath.extsep ∉ e) /\ (OsPath.sep ∉ e).
Proof.
  intros Hin.
  pose proof (proj1 (Forall_forall _ _) allowed_formats_shape _ Hin)
    as (Hhd & Hdot & Hsep).
  destruct ext as [|x e]; [done|]. simpl in *. exists e.
  assert (x = OsPath.extsep) as ->.
  { apply ascii_lower_fixes_nonletter; [congruence|]. left. by compute. }
  split; [done|]. split.
  - intros H. apply Hdot. by apply ascii_lower_elem.
  - intros H. apply Hsep. by apply ascii_lower_elem.
Qed.

(** X16.  With the model loaded and a supported language, an upload named
    [stem ++ ext], where [stem] has no slash and does not start with a
    period and [ext] is one of the five formats in any mix of upper and
    lower case, passes the three checks: the extension used is [ext]
    lower-cased, and the run never ends with a 400 error. *)
Theorem allowed_extension_any_case_accepted (app : App) (env : Env) (req : Request)
    (m : WhisperModel) (stem ext : pystr) (c : N) :
  model app = Some m ->
  language_of req ∈ keys SUPPORTED_LANGUAGES ->
  audio_filename req = stem ++ ext ->
  head stem = Some c -> c <> OsPath.extsep -> OsPath.sep ∉ stem ->
  forallb is_ascii ext = true ->
  map ascii_lower ext ∈ allowed_formats ->
  file_ext_of env req = map ascii_lower ext
  /\ validated app env req m
  /\ (forall f detail, (run app env req f).1 <> Raise (HTTPException 400 detail)).
Proof.
  intros Hm Hlang Hname Hhd Hc Hsep Hascii Hallowed.
  destruct (allowed_ext_shape ext Hallowed) as (e & -> & Hdot & Hsep').
  assert (Hext : file_ext_of env req = map ascii_lower (OsPath.extsep :: e)).
  { unfold file_ext_of, lower.
    rewrite Hname, (splitext_plain stem e c) by done. simpl snd. by rewrite Hascii. }
  assert (Hv : validated app env req m).
  { split; [done|]. split; [done|]. by rewrite Hext. }
  split; [done|]. split; [done|].
  intros f detail. destruct Hv as (_ & _ & Hok).
  all_runs app env req f; unfold failed, answer; simpl; try congruence; try done;
    repeat case_match; done.
Qed.

Lemma allowed_extension_any_case_accepted_witness :
  file_ext_of Sample.env Sample.request = map ascii_lower (lit ".WAV")
  /\ validated Sample.app Sample.env Sample.request Sample.whisper
  /\ (forall f detail,
        (run Sample.app Sample.env Sample.request f).1
        <> Raise (HTTPException 400 detail)).
Proof.
  apply (allowed_extension_any_case_accepted Sample.app Sample.env Sample.request
           Sample.whisper (lit "clip") (lit ".WAV") 99%N).
  - reflexivity.
  - compute_done.
  - reflexivity.
  - reflexivity.
  - compute_done.
  - compute_done.
  - reflexivity.
  - compute_done.
Defined.

(** ** Startup and the language list *)

Lemma run_503_no_model app env req f detail :
  (run app env req f).1 = Raise (HTTPException 503 detail) -> model app = None.
Proof.
  all_runs app env req f; unfold answer, failed; simpl; try done;
    repeat case_match; simpl; done.
Qed.

(** X17.  When [whisper.load_model("base")] succeeds at startup, the module
    keeps the model, [GET /health] reports [model_loaded: true], and no
    request is answered with 503. *)
Theorem loaded_model_serves (env0 : Env) (m : WhisperModel) :
  whisper_load_model env0 (lit "base") = inr m ->
  model (load_model env0).1 = Some m
  /\ dict_get (health_check (load_model env0).1) (lit "model_loaded")
     = Some (JBool true)
  /\ (forall env req f detail,
        (run (load_model env0).1 env req f).1 <> Raise (HTTPException 503 detail)).
Proof.
  intros Hload.
  assert (Hm : model (load_model env0).1 = Some m).
  { unfold load_model. by rewrite Hload. }
  split; [done|]. split.
  - unfold health_check. by rewrite Hm.
  - intros env req f detail Hrun. apply run_503_no_model in Hrun. congruence.
Qed.

Lemma loaded_model_serves_witness :
  model (load_model Sample.env).1 = Some Sample.whisper
  /\ dict_get (health_check (load_model Sample.env).1) (lit "model_loaded")
     = Some (JBool true)
  /\ (forall env req f detail,
        (run (load_model Sample.env).1 env req f).1
        <> Raise (HTTPException 503 detail)).
Proof.
  apply (loaded_model_serves Sample.env Sample.whisper). reflexivity.
Defined.


Lemma dict_get_map {V W} (g : V -> W) (d : dict V) (k : pystr) :
  dict_get (map (fun kv => (kv.1, g kv.2)) d) k = g <$> dict_get d k.
Proof.
  induction d as [|[k' v] d IH]; [done|]. simpl. by destruct (decide (k' = k)).
Qed.

Lemma dict_get_Some_keys {V} (d : dict V) (k : pystr) (v : V) :
  dict_get d k = Some v -> k ∈ keys d.
Proof.
  unfold keys. induction d as [|[k' v'] d IH]; [done|]. simpl.
  destruct (decide (k' = k)) as [->|]; [intros _; apply list_elem_of_here|].
  intros H. apply list_elem_of_further. auto.
Qed.

(** X19.  Every code that [GET /api/languages] lists with a name is a key
    of the registry with that name, [total] is the number of codes listed,
    and a request with such a code passes the language check: if it ends
    with a 400 error, it is the format error. *)
Theorem listed_language_accepted (app : App) (env : Env) (req : Request) (f : FS)
    (langs : dict json) (code name : pystr) :
  dict_get get_languages (lit "supported_languages") = Some (JObj langs) ->
  dict_get langs code = Some (JStr name) ->
  form_language req = Some code ->
  dict_get SUPPORTED_LANGUAGES code = Some name
  /\ dict_get get_languages (lit "total") = Some (JInt (Z.of_nat (length langs)))
  /\ (forall detail,
        (run app env req f).1 = Raise (HTTPException 400 detail) ->
        detail = lit "Invalid format. Allowed: ['.m4a', '.wav', '.mp3', '.ogg', '.flac']").
Proof.
  intros Hlangs Hcode Hform.
  assert (langs = map (fun kv => (kv.1, JStr kv.2)) SUPPORTED_LANGUAGES) as ->.
  { unfold get_languages in Hlangs. cbn [dict_get] in Hlangs.
    destruct (decide _) in Hlangs; [by simplify_eq|done]. }
  rewrite dict_get_map in Hcode.
  destruct (dict_get SUPPORTED_LANGUAGES code) as [name'|] eqn:Hname; [|done].
  simpl in Hcode. simplify_eq. split; [done|]. split; [by rewrite length_map|].
  assert (Hin : language_of req ∈ keys SUPPORTED_LANGUAGES).
  { assert (language_of req = code) as -> by (unfold language_of; by rewrite Hform).
    by eapply dict_get_Some_keys. }
  intros detail Hrun. pose proof (run_outcome app env req f) as Hout.
  rewrite Hrun in Hout.
  destruct Hout as [[? _]|[[_ Hbad]|[(_ & _ & ->)|?]]]; done.
Qed.

Lemma listed_language_accepted_witness :
  dict_get SUPPORTED_LANGUAGES (lit "ta") = Some (lit "Tamil")
  /\ dict_get get_languages (lit "total") = Some (JInt 10).
Proof.
  destruct (listed_language_accepted Sample.app Sample.env
              (with_language (Some (lit "ta")) Sample.request) ∅
              (map (fun kv => (kv.1, JStr kv.2)) SUPPORTED_LANGUAGES)
              (lit "ta") (lit "Tamil"))
    as (Hname & Htotal & _).
  - reflexivity.
  - reflexivity.
  - reflexivity.
  - split; [exact Hname|exact Htotal].
Defined.

(** ** A response that cannot be encoded *)

(** X20.  When the request is validated, the upload staged and the model
    has returned its text, but the file name or the stripped text holds a
    lone surrogate, building the response fails: the handler answers with
    the 500 error carrying the codec's message, having called the model
    once, and the temporary file is removed as on any other exit. *)
Theorem unencodable_response_500 (app : App) (env : Env) (req : Request) (f : FS)
    (m : WhisperModel) (path : pystr) (body : bytes) (result : TranscribeResult) :
  validated app env req m ->
  staged env req f path body ->
  transcribe m (<[path := body]> f) path (language_of req) false false = inr result ->
  no_surrogate (strip (text result)) && no_surrogate (audio_filename req) = false ->
  exists msg,
    utf8_encode_error
      (json_dumps
         (JObj (success_content (strip (text result)) (language_of req)
                  (default [] (dict_get SUPPORTED_LANGUAGES (language_of req)))
                  (audio_filename req))))
    = Some msg
    /\ (run app env req f).1
       = Raise (HTTPException 500 (lit "Transcription failed: " ++ msg))
    /\ filter is_transcribe (trace (run app env req f).2)
       = [EvTranscribe path (language_of req) false false]
    /\ filter is_remove (trace (run app env req f).2) = [EvRemove path]
    /\ (remove_error env = None -> fs (run app env req f).2 = f).
Proof.
  intros Hv Hs Hres Hdirty. rewrite (run_staged _ _ _ _ _ _ _ Hv Hs).
  destruct Hv as (_ & Hlang & _).
  destruct (dict_get_keys _ _ Hlang) as [name Hname].
  destruct (registry_no_surrogate _ _ Hname) as [Hl Hn].
  unfold answer. rewrite Hres, Hname. cbn [default from_option id].
  destruct (utf8_encode_error _) as [msg|] eqn:Herr.
  - exists msg. split; [done|]. split; [done|].
    split; [by destruct (remove_error env)|].
    split; [by destruct (remove_error env)|]. by intros ->.
  - apply utf8_encode_error_none in Herr.
    rewrite success_content_no_surrogate, Hl, Hn in Herr.
    rewrite !andb_true_r in Herr. congruence.
Qed.

Lemma unencodable_response_500_witness :
  exists msg,
    utf8_encode_error
      (json_dumps
         (JObj (success_content (strip (lit "  namaste duniya  "))
                  (language_of Cases.request_surrogate)
                  (default []
                     (dict_get SUPPORTED_LANGUAGES (language_of Cases.request_surrogate)))
                  (audio_filename Cases.request_surrogate))))
    = Some msg
    /\ (run Sample.app Sample.env Cases.request_surrogate ∅).1
       = Raise (HTTPException 500 (lit "Transcription failed: " ++ msg))
    /\ filter is_transcribe (trace (run Sample.app Sample.env Cases.request_surrogate ∅).2)
       = [EvTranscribe (lit "/tmp/tmpk3x9q2ab.wav")
            (language_of Cases.request_surrogate) false false]
    /\ filter is_remove (trace (run Sample.app Sample.env Cases.request_surrogate ∅).2)
       = [EvRemove (lit "/tmp/tmpk3x9q2ab.wav")]
    /\ (remove_error Sample.env = None ->
        fs (run Sample.app Sample.env Cases.request_surrogate ∅).2 = ∅).
Proof.
  apply (unencodable_response_500 Sample.app Sample.env Cases.request_surrogate ∅
           Sample.whisper (lit "/tmp/tmpk3x9q2ab.wav") Sample.riff
           {| text := lit "  namaste duniya  " |}).
  - sample_checks.
  - sample_checks.
  - reflexivity.
  - reflexivity.
Defined.
